(** * terraform-provider-vmds: polling loops and response-to-state mappers

    A shallow embedding of the lifecycle code of the MDS Terraform provider:
    - [resource_cluster]: [saveFromResponse], [Create] and [Delete] of
      src/mds/resource_cluster.go;
    - [data_source_regions]: [saveRegionsToState] of
      src/mds/data_source_regions.go;
    - [data_source_service_roles]: [Read] of the service-roles data source;
    - [reference]: a framework and inputs on which the operations compute.

    The remote control plane is a scripted client (the replies it will give,
    in order); every interaction of the provider with it, every sleep and
    every write of the host state is recorded in a trace.  Calls of
    [tflog] only log and are left out. *)

From Stdlib Require Import ZArith Lia.
From stdpp Require Import base list strings gmap.

(** ** Go errors *)

Module errors.

(** Modelled from the spec: the declaration of [core.ApiError] is not among
    the sources.  It is the typed API error carrying an HTTP status code of
    the spec, with the field [StatusCode] that [Delete] reads.  Any other
    leaf error is [New]; [Wrap] is an error that unwraps to [inner] (as built
    by [fmt.Errorf] with [%w]). *)
Inductive error :=
| ApiError (StatusCode : Z) (ErrorMessage : string)
| New (text : string)
| Wrap (text : string) (inner : error).

(** [err.Error()]. *)
Definition Error (err : error) : string :=
  match err with
  | ApiError _ msg => msg
  | New text => text
  | Wrap text _ => text
  end.

(** [errors.As(err, &apiError)] for a target of type [core.ApiError]: the
    first [ApiError] of the chain, when there is one. *)
Fixpoint As_ApiError (err : error) : option (Z * string) :=
  match err with
  | ApiError code msg => Some (code, msg)
  | New _ => None
  | Wrap _ inner => As_ApiError inner
  end.

End errors.

Module http.

Definition StatusNotFound : Z := 404.

End http.

(** A call of the client returns a value or an error. *)
Inductive result (A : Type) :=
| Ok (a : A)
| Err (err : errors.error).
Arguments Ok {A} a.
Arguments Err {A} err.

(** ** Diagnostics of the plugin framework *)

Module diag.

Inductive Severity := SeverityError | SeverityWarning.

Record Diagnostic := NewDiagnostic {
  severity : Severity;
  Summary : string;
  Detail : string
}.

#[global] Instance Severity_eq_dec : EqDecision Severity.
Proof. solve_decision. Defined.

#[global] Instance Diagnostic_eq_dec : EqDecision Diagnostic.
Proof. solve_decision. Defined.

Definition NewErrorDiagnostic (summary detail : string) : Diagnostic :=
  NewDiagnostic SeverityError summary detail.

Definition Contains (diags : list Diagnostic) (d : Diagnostic) : bool :=
  bool_decide (d ∈ diags).

(** [diags.Append(in...)]: duplicates of a diagnostic already present are
    skipped. *)
Fixpoint Append (diags in_ : list Diagnostic) : list Diagnostic :=
  match in_ with
  | [] => diags
  | d :: rest => Append (if Contains diags d then diags else diags ++ [d]) rest
  end.

Definition AddError (diags : list Diagnostic) (summary detail : string)
  : list Diagnostic :=
  Append diags [NewErrorDiagnostic summary detail].

Definition isError (d : Diagnostic) : bool :=
  match severity d with SeverityError => true | SeverityWarning => false end.

Definition HasError (diags : list Diagnostic) : bool := existsb isError diags.

End diag.

(** ** Attribute values of the plugin framework *)

Module types.

Inductive AttrType :=
| StringType
| BoolType
| ListType (ElemType : AttrType)
| SetType (ElemType : AttrType).

#[global] Instance AttrType_eq_dec : EqDecision AttrType.
Proof. solve_decision. Defined.

Inductive String := StringNull | StringUnknown | StringValue (value : string).

Inductive Bool := BoolNull | BoolUnknown | BoolValue (value : bool).

Inductive List :=
| ListNull (elementType : AttrType)
| ListUnknown (elementType : AttrType)
| ListValue (elementType : AttrType) (elements : list String).

Inductive Set_ :=
| SetNull (elementType : AttrType)
| SetUnknown (elementType : AttrType)
| SetValue (elementType : AttrType) (elements : list String).

Inductive Value :=
| OfString (v : String)
| OfBool (v : Bool)
| OfList (v : List)
| OfSet (v : Set_).

Inductive ValueState := StateNull | StateUnknown | StateKnown.

Record Object := NewObject {
  AttributeTypes : gmap string AttrType;
  state : ValueState;
  Attributes : gmap string Value
}.

Definition ObjectUnknown (tys : gmap string AttrType) : Object :=
  NewObject tys StateUnknown ∅.

(** [s.ValueString()]: the empty string for a null or unknown value. *)
Definition ValueString (s : String) : string :=
  match s with StringValue v => v | _ => "" end.

(** [b.ValueBool()]: false for a null or unknown value. *)
Definition ValueBool (b : Bool) : bool :=
  match b with BoolValue v => v | _ => false end.

(** The conversions of the plugin framework between Go values and attribute
    values.  They work by reflection, outside the provider: the provider only
    sees the value and the diagnostics they return.
    - [ListValueFrom], [SetValueFrom]: [types.ListValueFrom] and
      [types.SetValueFrom] on a slice of strings;
    - [ElementsAs]: the strings [s.ElementsAs(ctx, &target, true)] stores;
    - [Sprint]: the [%v] rendering of a string value. *)
Class Reflection := {
  ListValueFrom : AttrType → list string → List * list diag.Diagnostic;
  SetValueFrom : AttrType → list string → Set_ * list diag.Diagnostic;
  ElementsAs : Set_ → list string;
  Sprint : String → string
}.

End types.

(** ** The API model *)

Module model.

(** The [Metadata] part of a cluster response. *)
Record MdsMetadata := {
  ManagerUri : string;
  ConnectionUri : string;
  MetricsEndpoints : list string
}.

(** Modelled from the spec: the declaration of [model.MdsCluster] is not
    among the sources.  It is the Observed Resource of the spec, a snapshot
    with an identifier and a status; the other fields are the ones
    [saveFromResponse] reads.  [Metadata] is a pointer and may be nil. *)
Record MdsCluster := {
  ID : string;
  OrgId : string;
  Name : string;
  ServiceType : string;
  Provider : string;
  InstanceSize : string;
  Region : string;
  Tags : list string;
  Status : string;
  DataPlaneId : string;
  LastUpdated : string;
  Created : string;
  Metadata : option MdsMetadata
}.

(** The response of the service-roles endpoint.  Its declarations are not
    among the sources: the fields are the ones [Read] of the service-roles data
    source goes through. *)
Module MdsPermission.
Record t := { Name : string; Description : string; PermissionId : string }.
End MdsPermission.

Module MdsRole.
Record t := {
  RoleID : string;
  Name : string;
  Description : string;
  Type_ : string;
  Permissions : list MdsPermission.t
}.
End MdsRole.

Record MdsServiceRoleDTO := { Roles : list MdsRole.t }.

Record MdsRolesEmbedded := { ServiceRoleDTO : list MdsServiceRoleDTO }.

Record MdsRolesResponse := { Embedded : MdsRolesEmbedded }.

End model.

(** ** Requests of the client *)

Module controller.

(** The request body [Create] builds from the plan. *)
Record MdsClusterCreateRequest := {
  Name : string;
  ServiceType : string;
  InstanceSize : string;
  Provider : string;
  Region : string;
  Dedicated : bool;
  Shared : bool;
  DataPlaneId : string;
  Tags : list string;
  NetworkPolicyIds : list string
}.

Record MdsClustersQuery := {
  q_ServiceType : string;
  q_Name : string;
  FullNameMatch : bool
}.

End controller.

Module service_metadata.

Record MDSRolesQuery := { Type_ : string }.

End service_metadata.

(** ** src/mds/resource_cluster.go *)

Module resource_cluster.

(** [clusterResourceModel] maps the resource schema data. *)
Record clusterResourceModel := NewClusterResourceModel {
  ID : types.String;
  OrgId : types.String;
  Name : types.String;
  ServiceType : types.String;
  Provider : types.String;
  InstanceSize : types.String;
  Region : types.String;
  Tags : types.Set_;
  NetworkPolicyIds : types.Set_;
  Dedicated : types.Bool;
  Shared : types.Bool;
  Status : types.String;
  DataPlaneId : types.String;
  LastUpdated : types.String;
  Created : types.String;
  Metadata : types.Object
}.

Record clusterMetadataModel := {
  ManagerUri : types.String;
  ConnectionUri : types.String;
  MetricsEndpoints : types.List
}.

(** The attributes [clusterResourceModel] declares, by their [tfsdk] names. *)
Inductive attribute :=
| id | org_id | name | service_type | cloud_provider | instance_size | region
| tags | network_policy_ids | dedicated | shared | status | data_plane_id
| last_updated | created | metadata.

#[global] Instance attribute_eq_dec : EqDecision attribute.
Proof. solve_decision. Defined.

Definition declared : list attribute :=
  [id; org_id; name; service_type; cloud_provider; instance_size; region;
   tags; network_policy_ids; dedicated; shared; status; data_plane_id;
   last_updated; created; metadata].

(** An assignment [state.F = v] of [saveFromResponse]. *)
Inductive assignment :=
| set_ID (v : types.String)
| set_Name (v : types.String)
| set_ServiceType (v : types.String)
| set_Provider (v : types.String)
| set_InstanceSize (v : types.String)
| set_Region (v : types.String)
| set_Status (v : types.String)
| set_OrgId (v : types.String)
| set_DataPlaneId (v : types.String)
| set_LastUpdated (v : types.String)
| set_Created (v : types.String)
| set_Metadata (v : types.Object)
| set_Tags (v : types.Set_).

(** The attribute an assignment writes. *)
Definition target (w : assignment) : attribute :=
  match w with
  | set_ID _ => id
  | set_Name _ => name
  | set_ServiceType _ => service_type
  | set_Provider _ => cloud_provider
  | set_InstanceSize _ => instance_size
  | set_Region _ => region
  | set_Status _ => status
  | set_OrgId _ => org_id
  | set_DataPlaneId _ => data_plane_id
  | set_LastUpdated _ => last_updated
  | set_Created _ => created
  | set_Metadata _ => metadata
  | set_Tags _ => tags
  end.

(** The state after an assignment: one field replaced, the others kept. *)
Definition store (w : assignment) (s : clusterResourceModel) : clusterResourceModel :=
  let 'NewClusterResourceModel i o n st p sz r t np d sh stat dp lu c m := s in
  match w with
  | set_ID v => NewClusterResourceModel v o n st p sz r t np d sh stat dp lu c m
  | set_Name v => NewClusterResourceModel i o v st p sz r t np d sh stat dp lu c m
  | set_ServiceType v => NewClusterResourceModel i o n v p sz r t np d sh stat dp lu c m
  | set_Provider v => NewClusterResourceModel i o n st v sz r t np d sh stat dp lu c m
  | set_InstanceSize v => NewClusterResourceModel i o n st p v r t np d sh stat dp lu c m
  | set_Region v => NewClusterResourceModel i o n st p sz v t np d sh stat dp lu c m
  | set_Status v => NewClusterResourceModel i o n st p sz r t np d sh v dp lu c m
  | set_OrgId v => NewClusterResourceModel i v n st p sz r t np d sh stat dp lu c m
  | set_DataPlaneId v => NewClusterResourceModel i o n st p sz r t np d sh stat v lu c m
  | set_LastUpdated v => NewClusterResourceModel i o n st p sz r t np d sh stat dp v c m
  | set_Created v => NewClusterResourceModel i o n st p sz r t np d sh stat dp lu v m
  | set_Metadata v => NewClusterResourceModel i o n st p sz r t np d sh stat dp lu c v
  | set_Tags v => NewClusterResourceModel i o n st p sz r v np d sh stat dp lu c m
  end.

(** What a lifecycle operation does to the outside world, in order: the calls
    of the REST client, the calls of [time.Sleep] (in seconds) and the calls
    of [resp.State.Set]. *)
Inductive event :=
| CreateMdsCluster (req : controller.MdsClusterCreateRequest)
| GetMdsClusters (query : controller.MdsClustersQuery)
| GetMdsCluster (id : string)
| DeleteMdsCluster (id : string)
| Sleep (seconds : nat)
| StateSet (state : clusterResourceModel).

(** The calls that fetch the resource being polled. *)
Definition isFetch (e : event) : bool :=
  match e with
  | GetMdsClusters _ | GetMdsCluster _ => true
  | _ => false
  end.

(** The number of fetches in a trace. *)
Definition fetches (tr : list event) : nat := length (List.filter isFetch tr).

(** An operation that has run on a scripted client either returned, or is
    blocked in a call the script has no reply for: it has consumed every
    scripted reply and is still polling. *)
Inductive run (A : Type) :=
| Returned (a : A) (tr : list event)
| Polling (tr : list event).
Arguments Returned {A} a tr.
Arguments Polling {A} tr.

(** What the resource needs of the plugin framework: the conversions above,
    [types.ObjectValueFrom] on a [clusterMetadataModel], and the diagnostics of
    [resp.State.Set(ctx, plan)], which writes the state unless they carry an
    error. *)
Class Framework := {
  reflection :: types.Reflection;
  ObjectValueFrom :
    gmap string types.AttrType → clusterMetadataModel →
    types.Object * list diag.Diagnostic;
  State_Set : clusterResourceModel → list diag.Diagnostic
}.

(** *** Statements of a mapper

    A statement runs on the frame of the call: the state (or plan) the
    pointer [state] designates, the diagnostics the pointer [diagnostics]
    designates, and the log of the attributes assigned so far.  It either
    goes on with a value or leaves the function with a return code. *)

Record Frame := {
  f_state : clusterResourceModel;
  f_diagnostics : list diag.Diagnostic;
  f_assigned : list attribute
}.

Inductive Flow (A : Type) :=
| Next (a : A)
| Return (code : Z).
Arguments Next {A} a.
Arguments Return {A} code.

Definition Stmt (A : Type) : Type := Frame → Flow A * Frame.

#[global] Instance Stmt_ret : MRet Stmt := λ A a fr, (Next a, fr).

#[global] Instance Stmt_bind : MBind Stmt := λ A B k m fr,
  match m fr with
  | (Next a, fr') => k a fr'
  | (Return code, fr') => (Return code, fr')
  end.

Definition return_ {A} (code : Z) : Stmt A := λ fr, (Return code, fr).

Definition assign (w : assignment) : Stmt unit := λ fr,
  (Next tt,
   {| f_state := store w (f_state fr);
      f_diagnostics := f_diagnostics fr;
      f_assigned := f_assigned fr ++ [target w] |}).

Definition read_state : Stmt clusterResourceModel := λ fr, (Next (f_state fr), fr).

(** [if diagnostics.Append(diags...); diagnostics.HasError() { return 1 }] *)
Definition check (diags : list diag.Diagnostic) : Stmt unit := λ fr,
  let fr' := {| f_state := f_state fr;
                f_diagnostics := diag.Append (f_diagnostics fr) diags;
                f_assigned := f_assigned fr |} in
  if diag.HasError (f_diagnostics fr') then (Return 1%Z, fr') else (Next tt, fr').

Section Mapper.
Context {fw : Framework}.

Definition saveFromResponse (cluster : model.MdsCluster) : Stmt Z :=
  assign (set_ID (types.StringValue (model.ID cluster))) ;;
  assign (set_Name (types.StringValue (model.Name cluster))) ;;
  assign (set_ServiceType (types.StringValue (model.ServiceType cluster))) ;;
  assign (set_Provider (types.StringValue (model.Provider cluster))) ;;
  assign (set_InstanceSize (types.StringValue (model.InstanceSize cluster))) ;;
  assign (set_Region (types.StringValue (model.Region cluster))) ;;
  assign (set_Status (types.StringValue (model.Status cluster))) ;;
  assign (set_OrgId (types.StringValue (model.OrgId cluster))) ;;
  assign (set_DataPlaneId (types.StringValue (model.DataPlaneId cluster))) ;;
  assign (set_LastUpdated (types.StringValue (model.LastUpdated cluster))) ;;
  assign (set_Created (types.StringValue (model.Created cluster))) ;;
  let metadataModel :=
    {| ManagerUri := types.StringValue "";
       ConnectionUri := types.StringValue "";
       MetricsEndpoints := types.ListNull types.StringType |} in
  metadataModel ←
    match model.Metadata cluster with
    | Some md =>
        let '(list, diags) :=
          types.ListValueFrom types.StringType (model.MetricsEndpoints md) in
        check diags ;;
        mret {| ManagerUri := types.StringValue (model.ManagerUri md);
                ConnectionUri := types.StringValue (model.ConnectionUri md);
                MetricsEndpoints := list |}
    | None => mret metadataModel
    end ;
  state ← read_state ;
  let '(metadataObject, diags) :=
    ObjectValueFrom (types.AttributeTypes (Metadata state)) metadataModel in
  check diags ;;
  assign (set_Metadata metadataObject) ;;
  let '(list, diags) := types.SetValueFrom types.StringType (model.Tags cluster) in
  check diags ;;
  assign (set_Tags list) ;;
  mret 0%Z.

(** One call [saveFromResponse(&ctx, diagnostics, state, cluster)]: the return
    code, and the frame it leaves. *)
Definition call_saveFromResponse
    (diagnostics : list diag.Diagnostic) (state : clusterResourceModel)
    (cluster : model.MdsCluster) : Z * Frame :=
  match saveFromResponse cluster
          {| f_state := state; f_diagnostics := diagnostics; f_assigned := [] |} with
  | (Next code, fr) => (code, fr)
  | (Return code, fr) => (code, fr)
  end.

(** *** What a call of the mapper leaves

    The attributes the eleven leading assignments write, and the state after
    them: each of these fields holds the string of the response, the others
    are the ones of [s]. *)
Definition strings : list attribute :=
  [id; name; service_type; cloud_provider; instance_size; region; status;
   org_id; data_plane_id; last_updated; created].

Definition savedStrings (s : clusterResourceModel) (c : model.MdsCluster)
  : clusterResourceModel :=
  {| ID := types.StringValue (model.ID c);
     OrgId := types.StringValue (model.OrgId c);
     Name := types.StringValue (model.Name c);
     ServiceType := types.StringValue (model.ServiceType c);
     Provider := types.StringValue (model.Provider c);
     InstanceSize := types.StringValue (model.InstanceSize c);
     Region := types.StringValue (model.Region c);
     Tags := Tags s;
     NetworkPolicyIds := NetworkPolicyIds s;
     Dedicated := Dedicated s;
     Shared := Shared s;
     Status := types.StringValue (model.Status c);
     DataPlaneId := types.StringValue (model.DataPlaneId c);
     LastUpdated := types.StringValue (model.LastUpdated c);
     Created := types.StringValue (model.Created c);
     Metadata := Metadata s |}.

(** The metadata struct handed to [ObjectValueFrom]. *)
Definition metadataModelOf (c : model.MdsCluster) : clusterMetadataModel :=
  match model.Metadata c with
  | Some md =>
      {| ManagerUri := types.StringValue (model.ManagerUri md);
         ConnectionUri := types.StringValue (model.ConnectionUri md);
         MetricsEndpoints :=
           (types.ListValueFrom types.StringType (model.MetricsEndpoints md)).1 |}
  | None =>
      {| ManagerUri := types.StringValue "";
         ConnectionUri := types.StringValue "";
         MetricsEndpoints := types.ListNull types.StringType |}
  end.

Definition metadataObjectOf (s : clusterResourceModel) (c : model.MdsCluster)
  : types.Object :=
  (ObjectValueFrom (types.AttributeTypes (Metadata s)) (metadataModelOf c)).1.

Definition tagsOf (c : model.MdsCluster) : types.Set_ :=
  (types.SetValueFrom types.StringType (model.Tags c)).1.

(** The three ways a call on diagnostics [d], state [s] and response [c] can
    end: before the metadata is assigned, before the tags are, or with every
    assignment done. *)
Inductive saved (d : list diag.Diagnostic) (s : clusterResourceModel)
    (c : model.MdsCluster) : Z → Frame → Prop :=
| saved_strings fr :
    diag.HasError (f_diagnostics fr) = true →
    f_state fr = savedStrings s c →
    f_assigned fr = strings →
    saved d s c 1 fr
| saved_metadata fr :
    diag.HasError d = false →
    diag.HasError (f_diagnostics fr) = true →
    f_state fr = store (set_Metadata (metadataObjectOf s c)) (savedStrings s c) →
    f_assigned fr = strings ++ [metadata] →
    saved d s c 1 fr
| saved_all fr :
    diag.HasError d = false →
    diag.HasError (f_diagnostics fr) = false →
    f_state fr =
      store (set_Tags (tagsOf c))
        (store (set_Metadata (metadataObjectOf s c)) (savedStrings s c)) →
    f_assigned fr = strings ++ [metadata; tags] →
    saved d s c 0 fr.

(** The object [ObjectValueFrom] returns has the attribute types it was
    given, whether the conversion succeeds or not. *)
Definition keeps_types : Prop :=
  ∀ tys m, types.AttributeTypes (ObjectValueFrom tys m).1 = tys.

End Mapper.

(** How many times a call assigned the attribute [a]. *)
Definition assignments (a : attribute) (fr : Frame) : nat :=
  length (filter (λ b, b = a) (f_assigned fr)).

(** *** The scripted client

    The replies the remote API will give: one for the create request, one for
    the lookup by name, one for the delete request, and the replies of the
    successive calls [GetMdsCluster], in order. *)
Record Client := {
  CreateMdsCluster_reply : result unit;
  GetMdsClusters_reply : result (list model.MdsCluster);
  GetMdsCluster_replies : list (result model.MdsCluster);
  DeleteMdsCluster_reply : result unit
}.

(** The plan the host hands to [Create] and the state it hands to [Delete],
    as [req.Plan.Get] and [request.State.Get] decode them, with the
    diagnostics of the decoding. *)
Record CreateRequest := { Plan_Get : clusterResourceModel * list diag.Diagnostic }.

Record DeleteRequest := { State_Get : clusterResourceModel * list diag.Diagnostic }.

(** The response of a lifecycle operation: its diagnostics, and the state
    written by [resp.State.Set] when there is one. *)
Record Response := {
  Diagnostics : list diag.Diagnostic;
  State : option clusterResourceModel
}.

Definition AddError (resp : Response) (summary detail : string) : Response :=
  {| Diagnostics := diag.AddError (Diagnostics resp) summary detail;
     State := State resp |}.

Definition AppendDiagnostics (resp : Response) (diags : list diag.Diagnostic)
  : Response :=
  {| Diagnostics := diag.Append (Diagnostics resp) diags; State := State resp |}.

(** The loop of [Create]:
    [for createdCluster.Status != "READY" && createdCluster.Status != "FAILED"],
    on the replies that remain.  It ends with the cluster last fetched, or
    with the error of a fetch. *)
Fixpoint awaitSettled (createdCluster : model.MdsCluster)
    (replies : list (result model.MdsCluster)) (tr : list event) {struct replies}
  : run (result model.MdsCluster) :=
  if decide (model.Status createdCluster ≠ "READY"
             ∧ model.Status createdCluster ≠ "FAILED") then
    let tr := tr ++ [Sleep 10; GetMdsCluster (model.ID createdCluster)] in
    match replies with
    | [] => Polling tr
    | Err err :: _ => Returned (Err err) tr
    | Ok fetched :: replies => awaitSettled fetched replies tr
    end
  else Returned (Ok createdCluster) tr.

(** The loop of [Delete]: [for { ... }], left by [break] on a not-found API
    error ([None]) and by [return] on any other error ([Some err]). *)
Fixpoint awaitGone (id : string) (replies : list (result model.MdsCluster))
    (tr : list event) {struct replies} : run (option errors.error) :=
  let tr := tr ++ [Sleep 10; GetMdsCluster id] in
  match replies with
  | [] => Polling tr
  | Ok _ :: replies => awaitGone id replies tr
  | Err err :: _ =>
      match errors.As_ApiError err with
      | Some (StatusCode, _) =>
          if decide (StatusCode = http.StatusNotFound) then Returned None tr
          else Returned (Some err) tr
      | None => Returned (Some err) tr
      end
  end.

(** *** The vocabulary of the polling loops

    The classification of a status the loop condition of [Create] implements:
    [READY] is the success-terminal status, [FAILED] the failure-terminal one,
    every other status is pending. *)
Inductive classification := Pending | SuccessTerminal | FailureTerminal.

Definition classify (status : string) : classification :=
  if decide (status = "READY") then SuccessTerminal
  else if decide (status = "FAILED") then FailureTerminal
  else Pending.

#[global] Instance classification_eq_dec : EqDecision classification.
Proof. solve_decision. Defined.

Definition pending (c : model.MdsCluster) : Prop :=
  classify (model.Status c) = Pending.

#[global] Instance pending_dec (c : model.MdsCluster) : Decision (pending c).
Proof. unfold pending. apply _. Defined.

(** The events of the polls made from the snapshots [cs], one after each:
    a sleep of ten seconds and a fetch by the identifier of the snapshot. *)
Definition polls (cs : list model.MdsCluster) : list event :=
  cs ≫= λ c, [Sleep 10; GetMdsCluster (model.ID c)].

(** The fetches of [client] return the snapshots [observed], in order, and then
    [rest]: the first is the head of the lookup by name, the next ones are
    the replies of [GetMdsCluster]. *)
Definition fetchSequence (client : Client) (observed : list model.MdsCluster)
    (rest : list (result model.MdsCluster)) : Prop :=
  ∃ c0 others cs,
    GetMdsClusters_reply client = Ok (c0 :: others) ∧
    GetMdsCluster_replies client = (Ok <$> cs) ++ rest ∧
    observed = c0 :: cs.

(** The snapshots [client] can return to a fetch. *)
Definition fetched (client : Client) (c : model.MdsCluster) : Prop :=
  (∃ others, GetMdsClusters_reply client = Ok (c :: others)) ∨
  Ok c ∈ GetMdsCluster_replies client.

(** A not-found error: an API error with HTTP status 404. *)
Definition notFound (err : errors.error) : Prop :=
  ∃ msg, errors.As_ApiError err = Some (http.StatusNotFound, msg).

(** [Create] gets to its first fetch: the plan decodes to [plan] with
    diagnostics [diags], no error diagnostic is present, and the client
    accepts the create request. *)
Definition createSubmitted (client : Client) (req : CreateRequest) (resp : Response)
    (plan : clusterResourceModel) (diags : list diag.Diagnostic) : Prop :=
  Plan_Get req = (plan, diags) ∧
  diag.HasError (diag.Append (Diagnostics resp) diags) = false ∧
  ∃ u, CreateMdsCluster_reply client = Ok u.

(** [Delete] gets to its loop: the state decodes to [state] with diagnostics
    [diags], no error diagnostic is present, and the client accepts the
    delete request. *)
Definition deleteSubmitted (client : Client) (request : DeleteRequest) (resp : Response)
    (state : clusterResourceModel) (diags : list diag.Diagnostic) : Prop :=
  State_Get request = (state, diags) ∧
  diag.HasError (diag.Append (Diagnostics resp) diags) = false ∧
  ∃ u, DeleteMdsCluster_reply client = Ok u.

Section Lifecycle.
Context {fw : Framework}.

(** [Create] a new resource. *)
Definition Create (client : Client) (req : CreateRequest) (resp : Response)
  : run Response :=
  let '(plan, diags) := Plan_Get req in
  let resp := AppendDiagnostics resp diags in
  if diag.HasError (Diagnostics resp) then Returned resp [] else
  let clusterRequest :=
    {| controller.Name := types.ValueString (Name plan);
       controller.ServiceType := types.ValueString (ServiceType plan);
       controller.InstanceSize := types.ValueString (InstanceSize plan);
       controller.Provider := types.ValueString (Provider plan);
       controller.Region := types.ValueString (Region plan);
       controller.Dedicated := types.ValueBool (Dedicated plan);
       controller.Shared := types.ValueBool (Shared plan);
       controller.DataPlaneId := types.ValueString (DataPlaneId plan);
       controller.Tags := types.ElementsAs (Tags plan);
       controller.NetworkPolicyIds := types.ElementsAs (NetworkPolicyIds plan) |} in
  let tr := [CreateMdsCluster clusterRequest] in
  match CreateMdsCluster_reply client with
  | Err err =>
      Returned (AddError resp "Submitting request to create cluster"
                  ("Could not create cluster, unexpected error: " +:+ errors.Error err)) tr
  | Ok _ =>
  let tr := tr ++ [GetMdsClusters
                     {| controller.q_ServiceType := controller.ServiceType clusterRequest;
                        controller.q_Name := controller.Name clusterRequest;
                        controller.FullNameMatch := true |}] in
  match GetMdsClusters_reply client with
  | Err err =>
      Returned (AddError resp "Fetching clusters"
                  ("Could not fetch clusters by name, unexpected error: " +:+ errors.Error err)) tr
  | Ok [] =>
      Returned (AddError resp "Fetching Clusters" "Unable to fetch the created cluster") tr
  | Ok (createdCluster :: _) =>
  if decide (model.Status createdCluster = "FAILED") then
    Returned (AddError resp "Error creating cluster"
                "Cluster creation failed with the status 'FAILED'") tr
  else
  match awaitSettled createdCluster (GetMdsCluster_replies client) tr with
  | Polling tr => Polling tr
  | Returned (Err err) tr =>
      Returned (AddError resp "Fetching cluster"
                  ("Could not fetch cluster by ID, unexpected error: " +:+ errors.Error err)) tr
  | Returned (Ok createdCluster) tr =>
  let '(code, fr) := call_saveFromResponse (Diagnostics resp) plan createdCluster in
  let resp := {| Diagnostics := f_diagnostics fr; State := State resp |} in
  let plan := f_state fr in
  if decide (code ≠ 0%Z) then Returned resp tr else
  let diags := State_Set plan in
  let resp :=
    {| Diagnostics := diag.Append (Diagnostics resp) diags;
       State := if diag.HasError diags then State resp else Some plan |} in
  Returned resp (tr ++ [StateSet plan])
  end end end.

(** [Delete]: submit the request, then poll until the cluster is gone. *)
Definition Delete (client : Client) (request : DeleteRequest) (resp : Response)
  : run Response :=
  let '(state, diags) := State_Get request in
  let resp := AppendDiagnostics resp diags in
  if diag.HasError (Diagnostics resp) then Returned resp [] else
  let tr := [DeleteMdsCluster (types.ValueString (ID state))] in
  match DeleteMdsCluster_reply client with
  | Err err =>
      Returned (AddError resp "Deleting MDS Cluster"
                  ("Could not delete MDS cluster by ID " +:+ types.ValueString (ID state)
                   +:+ ": " +:+ errors.Error err)) tr
  | Ok _ =>
  match awaitGone (types.ValueString (ID state)) (GetMdsCluster_replies client) tr with
  | Polling tr => Polling tr
  | Returned (Some err) tr =>
      Returned (AddError resp "Fetching cluster"
                  ("Could not fetch cluster by id [" +:+ types.Sprint (ID state)
                   +:+ "], unexpected error: " +:+ errors.Error err)) tr
  | Returned None tr => Returned resp tr
  end end.

End Lifecycle.

End resource_cluster.

(** ** src/mds/data_source_regions.go: the regions data source *)

Module data_source_regions.

Record RegionsModel := {
  ID : types.String;
  Name : types.String;
  DataPlaneIds : types.List
}.

Record regionsDataSourceModel := {
  Cpu : types.String;
  Provider : types.String;
  Memory : types.String;
  Storage : types.String;
  NodeCount : types.String;
  Regions : list RegionsModel;
  DedicatedDataPlane : types.Bool;
  Id : types.String
}.

Definition set_Regions (state : regionsDataSourceModel) (regions : list RegionsModel)
  : regionsDataSourceModel :=
  {| Cpu := Cpu state; Provider := Provider state; Memory := Memory state;
     Storage := Storage state; NodeCount := NodeCount state; Regions := regions;
     DedicatedDataPlane := DedicatedDataPlane state; Id := Id state |}.

(** [range] over a Go map visits its entries in an order the language leaves
    open: [visit] is such an order for [regions] when it lists the entries of
    the map, each once. *)
Definition visits (regions : gmap string (list string))
    (visit : list (string * list string)) : Prop :=
  visit ≡ₚ map_to_list regions.

Section Mapper.
Context {rf : types.Reflection}.

(** [saveRegionsToState], on the entries of [regions] in the order the loop
    visits them: the return code, the diagnostics and the state it leaves. *)
Fixpoint saveRegionsToState (diagnostics : list diag.Diagnostic)
    (state : regionsDataSourceModel) (visit : list (string * list string))
  : Z * list diag.Diagnostic * regionsDataSourceModel :=
  match visit with
  | [] => (0%Z, diagnostics, state)
  | (regionName, dataPlaneIds) :: visit =>
      let '(list, diags) := types.ListValueFrom types.StringType dataPlaneIds in
      let diagnostics := diag.Append diagnostics diags in
      if diag.HasError diagnostics then (1%Z, diagnostics, state) else
      let instanceTypesState :=
        {| ID := types.StringValue regionName;
           Name := types.StringValue regionName;
           DataPlaneIds := list |} in
      saveRegionsToState diagnostics
        (set_Regions state (Regions state ++ [instanceTypesState])) visit
  end.

(** The entry the loop appends for a region. *)
Definition entryOf (region : string * list string) : RegionsModel :=
  {| ID := types.StringValue region.1;
     Name := types.StringValue region.1;
     DataPlaneIds := (types.ListValueFrom types.StringType region.2).1 |}.

End Mapper.

End data_source_regions.

(** ** src/mds/data_source_regions.go: the service-roles data source *)

Module data_source_service_roles.

Module MdsServiceRolePermissionsModel.
Record t := {
  Name : types.String;
  Description : types.String;
  PermissionId : types.String
}.
End MdsServiceRolePermissionsModel.

(** [ServiceRolesModel] maps role schema data. *)
Module ServiceRolesModel.
Record t := {
  RoleId : types.String;
  Name : types.String;
  Description : types.String;
  Type_ : types.String;
  Permissions : list MdsServiceRolePermissionsModel.t
}.
End ServiceRolesModel.

(** [ServiceRolesDataSourceModel] maps the data source schema data. *)
Record ServiceRolesDataSourceModel := {
  Roles : list ServiceRolesModel.t;
  Type_ : types.String
}.

Record ReadRequest := {
  Config_Get : ServiceRolesDataSourceModel * list diag.Diagnostic
}.

Record Response := {
  Diagnostics : list diag.Diagnostic;
  State : option ServiceRolesDataSourceModel
}.

(** The calls of [Read] to the outside world: the query sent to the API and
    the state handed to [resp.State.Set]. *)
Inductive event :=
| GetMdsServiceRoles (query : service_metadata.MDSRolesQuery)
| StateSet (state : ServiceRolesDataSourceModel).

(** How a call of [Read] ends: it returns, or the Go runtime panics. *)
Inductive exit :=
| Done (resp : Response)
| Panic (reason : string).

(** The client of the service-metadata API: its reply to a roles query. *)
Record Client := {
  GetMdsServiceRoles_reply :
    service_metadata.MDSRolesQuery → result model.MdsRolesResponse
}.

(** The diagnostics of [resp.State.Set(ctx, &state)], which writes the state
    unless they carry an error. *)
Class Host := {
  State_Set : ServiceRolesDataSourceModel → list diag.Diagnostic
}.

(** [permission := MdsServiceRolePermissionsModel{...}] *)
Definition permissionOf (permissionList : model.MdsPermission.t)
  : MdsServiceRolePermissionsModel.t :=
  {| MdsServiceRolePermissionsModel.Name :=
       types.StringValue (model.MdsPermission.Name permissionList);
     MdsServiceRolePermissionsModel.Description :=
       types.StringValue (model.MdsPermission.Description permissionList);
     MdsServiceRolePermissionsModel.PermissionId :=
       types.StringValue (model.MdsPermission.PermissionId permissionList) |}.

(** [roleList := ServiceRolesModel{..., Permissions: permissionsVal}] *)
Definition roleListOf (permissionsVal : list MdsServiceRolePermissionsModel.t)
    (role : model.MdsRole.t) : ServiceRolesModel.t :=
  {| ServiceRolesModel.RoleId := types.StringValue (model.MdsRole.RoleID role);
     ServiceRolesModel.Name := types.StringValue (model.MdsRole.Name role);
     ServiceRolesModel.Description := types.StringValue (model.MdsRole.Description role);
     ServiceRolesModel.Type_ := types.StringValue (model.MdsRole.Type_ role);
     ServiceRolesModel.Permissions := permissionsVal |}.

(** The inner loop over [role.Permissions]: one append per permission. *)
Definition appendPermissions
    (permissionsVal : list MdsServiceRolePermissionsModel.t)
    (permissions : list model.MdsPermission.t)
  : list MdsServiceRolePermissionsModel.t :=
  fold_left
    (λ permissionsVal permissionList, permissionsVal ++ [permissionOf permissionList])
    permissions permissionsVal.

(** The inner loop over the roles: one append to [state.Roles] per role, each
    with the current [permissionsVal].  The slice stored in an entry keeps its
    length: the later appends to [permissionsVal] do not change what the entry
    holds. *)
Definition appendRoles (stateRoles : list ServiceRolesModel.t)
    (roles : list model.MdsRole.t)
    (permissionsVal : list MdsServiceRolePermissionsModel.t)
  : list ServiceRolesModel.t :=
  fold_left
    (λ stateRoles role, stateRoles ++ [roleListOf permissionsVal role])
    roles stateRoles.

(** The outer loop over the roles, on the pair of [permissionsVal] and
    [state.Roles]. *)
Definition collectRoles (roles : list model.MdsRole.t)
    (stateRoles : list ServiceRolesModel.t)
  : list MdsServiceRolePermissionsModel.t * list ServiceRolesModel.t :=
  fold_left
    (λ '(permissionsVal, stateRoles) role,
       let permissionsVal :=
         appendPermissions permissionsVal (model.MdsRole.Permissions role) in
       (permissionsVal, appendRoles stateRoles roles permissionsVal))
    roles ([], stateRoles).


(** The queries sent to the API in a trace, and the roles of the states
    handed to [resp.State.Set]. *)
Definition queries (tr : list event) : list service_metadata.MDSRolesQuery :=
  omap (λ e, match e with GetMdsServiceRoles q => Some q | _ => None end) tr.

Definition rolesSet (tr : list event) : list (list ServiceRolesModel.t) :=
  omap (λ e, match e with StateSet state => Some (Roles state) | _ => None end) tr.

Definition panics (e : exit) : bool :=
  match e with Panic _ => true | Done _ => false end.

Section Read.
Context {host : Host}.
(** The constant [role_type.RABBITMQ] of the client, whose declaration is not
    among the sources. *)
Variable RABBITMQ : string.

(** [Read] refreshes the Terraform state with the latest data. *)
Definition Read (client : Client) (req : ReadRequest) (resp : Response)
  : exit * list event :=
  let '(state, diags) := Config_Get req in
  let resp := {| Diagnostics := diag.Append (Diagnostics resp) diags;
                 State := State resp |} in
  let query := {| service_metadata.Type_ := RABBITMQ |} in
  let tr := [GetMdsServiceRoles query] in
  match GetMdsServiceRoles_reply client query with
  | Err err =>
      (Done {| Diagnostics :=
                 diag.AddError (Diagnostics resp) "Unable to Read MDS Service roles"
                   (errors.Error err);
               State := State resp |}, tr)
  | Ok rolesResponse =>
  match model.ServiceRoleDTO (model.Embedded rolesResponse) with
  | [] => (Panic "index out of range [0] with length 0", tr)
  | dto :: _ =>
  let '(_, stateRoles) := collectRoles (model.Roles dto) (Roles state) in
  let state := {| Roles := stateRoles; Type_ := Type_ state |} in
  let diags := State_Set state in
  (Done {| Diagnostics := diag.Append (Diagnostics resp) diags;
           State := if diag.HasError diags then State resp else Some state |},
   tr ++ [StateSet state])
  end end.

End Read.

End data_source_service_roles.

(** ** A reference framework

    A framework in which every conversion succeeds, used to run the
    operations on concrete inputs: a slice of strings becomes the known list
    or set of its elements, the metadata struct becomes a known object when
    the attribute types are those of the schema (and an unknown object with
    an error diagnostic otherwise), and the host accepts every state. *)

Module reference.

Definition metadataTypes : gmap string types.AttrType :=
  {[ "manager_uri" := types.StringType;
     "connection_uri" := types.StringType;
     "metrics_endpoints" := types.ListType types.StringType ]}.

Definition reflection : types.Reflection :=
  {| types.ListValueFrom t xs := (types.ListValue t (types.StringValue <$> xs), []);
     types.SetValueFrom t xs := (types.SetValue t (types.StringValue <$> xs), []);
     types.ElementsAs s :=
       match s with
       | types.SetValue _ elements => types.ValueString <$> elements
       | _ => []
       end;
     types.Sprint s := types.ValueString s |}.

Definition framework : resource_cluster.Framework :=
  {| resource_cluster.reflection := reflection;
     resource_cluster.ObjectValueFrom tys m :=
       if decide (tys = metadataTypes) then
         (types.NewObject tys types.StateKnown
            {[ "manager_uri" := types.OfString (resource_cluster.ManagerUri m);
               "connection_uri" := types.OfString (resource_cluster.ConnectionUri m);
               "metrics_endpoints" := types.OfList (resource_cluster.MetricsEndpoints m) ]},
          [])
       else
         (types.ObjectUnknown tys,
          [diag.NewErrorDiagnostic "Value Conversion Error"
             "mismatch between struct and object type"]);
     resource_cluster.State_Set _ := [] |}.

Definition host : data_source_service_roles.Host :=
  {| data_source_service_roles.State_Set _ := [] |}.

(** A cluster snapshot with a given identifier and status. *)
Definition cluster (id status : string) : model.MdsCluster :=
  {| model.ID := id; model.OrgId := "org-1"; model.Name := "rmq";
     model.ServiceType := "RABBITMQ"; model.Provider := "aws";
     model.InstanceSize := "XX-SMALL"; model.Region := "eu-west-2";
     model.Tags := ["dev"]; model.Status := status;
     model.DataPlaneId := "dp-1"; model.LastUpdated := "t1";
     model.Created := "t0"; model.Metadata := None |}.

Definition creating : model.MdsCluster := cluster "c-1" "CREATING".

Definition ready : model.MdsCluster := cluster "c-1" "READY".

Definition failed : model.MdsCluster := cluster "c-1" "FAILED".

(** The plan of a cluster to create, as decoded from the schema. *)
Definition plan : resource_cluster.clusterResourceModel :=
  {| resource_cluster.ID := types.StringUnknown;
     resource_cluster.OrgId := types.StringUnknown;
     resource_cluster.Name := types.StringValue "rmq";
     resource_cluster.ServiceType := types.StringValue "RABBITMQ";
     resource_cluster.Provider := types.StringValue "aws";
     resource_cluster.InstanceSize := types.StringValue "XX-SMALL";
     resource_cluster.Region := types.StringValue "eu-west-2";
     resource_cluster.Tags := types.SetValue types.StringType [types.StringValue "dev"];
     resource_cluster.NetworkPolicyIds :=
       types.SetValue types.StringType [types.StringValue "np-1"];
     resource_cluster.Dedicated := types.BoolValue true;
     resource_cluster.Shared := types.BoolNull;
     resource_cluster.Status := types.StringUnknown;
     resource_cluster.DataPlaneId := types.StringUnknown;
     resource_cluster.LastUpdated := types.StringUnknown;
     resource_cluster.Created := types.StringUnknown;
     resource_cluster.Metadata := types.ObjectUnknown metadataTypes |}.

(** The state of the regions data source before the regions are saved, and a
    regions response with one region. *)
Definition regionsState : data_source_regions.regionsDataSourceModel :=
  {| data_source_regions.Cpu := types.StringValue "1";
     data_source_regions.Provider := types.StringValue "aws";
     data_source_regions.Memory := types.StringValue "4Gi";
     data_source_regions.Storage := types.StringValue "4Gi";
     data_source_regions.NodeCount := types.StringValue "1";
     data_source_regions.Regions := [];
     data_source_regions.DedicatedDataPlane := types.BoolNull;
     data_source_regions.Id := types.StringNull |}.

Definition oneRegion : gmap string (list string) := {[ "eu-west-2" := ["dp-1"] ]}.

(** A client whose create and delete requests are accepted, with the given
    replies to the lookup by name and to the fetches by identifier. *)
Definition client (lookup : result (list model.MdsCluster))
    (replies : list (result model.MdsCluster)) : resource_cluster.Client :=
  {| resource_cluster.CreateMdsCluster_reply := Ok tt;
     resource_cluster.GetMdsClusters_reply := lookup;
     resource_cluster.GetMdsCluster_replies := replies;
     resource_cluster.DeleteMdsCluster_reply := Ok tt |}.

Definition createRequest : resource_cluster.CreateRequest :=
  {| resource_cluster.Plan_Get := (plan, []) |}.

Definition deleteRequest : resource_cluster.DeleteRequest :=
  {| resource_cluster.State_Get := (plan, []) |}.

(** A roles response with two roles, of one and two permissions. *)
Definition permission (name : string) : model.MdsPermission.t :=
  {| model.MdsPermission.Name := name;
     model.MdsPermission.Description := name;
     model.MdsPermission.PermissionId := name |}.

Definition role (name : string) (permissions : list model.MdsPermission.t)
  : model.MdsRole.t :=
  {| model.MdsRole.RoleID := name; model.MdsRole.Name := name;
     model.MdsRole.Description := name; model.MdsRole.Type_ := "RABBITMQ";
     model.MdsRole.Permissions := permissions |}.

Definition twoRoles : list model.MdsRole.t :=
  [role "read" [permission "get"];
   role "write" [permission "put"; permission "delete"]].

Definition rolesResponse (dtos : list model.MdsServiceRoleDTO) : model.MdsRolesResponse :=
  {| model.Embedded := {| model.ServiceRoleDTO := dtos |} |}.

Definition rolesClient (reply : result model.MdsRolesResponse)
  : data_source_service_roles.Client :=
  {| data_source_service_roles.GetMdsServiceRoles_reply _ := reply |}.

Definition rolesRequest (type : string) : data_source_service_roles.ReadRequest :=
  {| data_source_service_roles.Config_Get :=
       ({| data_source_service_roles.Roles := [];
           data_source_service_roles.Type_ := types.StringValue type |}, []) |}.

Definition emptyRolesResponse : data_source_service_roles.Response :=
  {| data_source_service_roles.Diagnostics := [];
     data_source_service_roles.State := None |}.

Definition emptyResponse : resource_cluster.Response :=
  {| resource_cluster.Diagnostics := []; resource_cluster.State := None |}.

End reference.


(** ** The provider data handed to [Configure] *)

Module provider.

(** [req.ProviderData], a value of type [any]: nil, a pointer to the client,
    or a value of another type, of which [%T] prints the name. *)
Inductive ProviderData (C : Type) :=
| NoData
| ClientData (client : C)
| OtherData (typeName : string).
Arguments NoData {C}.
Arguments ClientData {C} client.
Arguments OtherData {C} typeName.

(** How a call that can panic ends. *)
Inductive outcome (A : Type) :=
| Done (a : A)
| Panic (reason : string).
Arguments Done {A} a.
Arguments Panic {A} reason.

End provider.

(** ** src/mds/resource_cluster.go: the other methods of the resource *)

Module clusterResource.

(** [Metadata]: the type name of the resource. *)
Definition Metadata (ProviderTypeName : string) : string :=
  ProviderTypeName +:+ "_cluster".

(** [Configure], on the client of the receiver (nil before the first call)
    and the diagnostics of the response. *)
Definition Configure (r_client : option resource_cluster.Client)
    (ProviderData : provider.ProviderData resource_cluster.Client)
    (Diagnostics : list diag.Diagnostic)
  : option resource_cluster.Client * list diag.Diagnostic :=
  match ProviderData with
  | provider.NoData => (r_client, Diagnostics)
  | provider.ClientData client => (Some client, Diagnostics)
  | provider.OtherData typeName =>
      (r_client,
       diag.AddError Diagnostics "Unexpected Resource Configure Type"
         ("Expected *mds.Client, got: " +:+ typeName
          +:+ ". Please report this issue to the provider developers."))
  end.

(** The state the host hands to [Read], as [req.State.Get] decodes it. *)
Record ReadRequest := {
  State_Get : resource_cluster.clusterResourceModel * list diag.Diagnostic
}.

(** The plan the host hands to [Update], as [req.Plan.Get] decodes it. *)
Record UpdateRequest := {
  Plan_Get : resource_cluster.clusterResourceModel * list diag.Diagnostic
}.

(** [controller.MdsClusterUpdateRequest], of which [Update] fills the tags. *)
Record MdsClusterUpdateRequest := { Tags : list string }.

(** The reply of the client to an update request. *)
Record UpdateClient := {
  UpdateMdsCluster_reply :
    string → MdsClusterUpdateRequest → result model.MdsCluster
}.

(** The calls of [Update] to the outside world. *)
Inductive update_event :=
| UpdateMdsCluster (id : string) (req : MdsClusterUpdateRequest)
| UpdateStateSet (state : resource_cluster.clusterResourceModel).

Section Lifecycle.
Context {fw : resource_cluster.Framework}.

(** [Read] resource information: one fetch by the identifier of the state,
    answered by the first reply of the client. *)
Definition Read (client : resource_cluster.Client) (req : ReadRequest)
    (resp : resource_cluster.Response)
  : resource_cluster.run resource_cluster.Response :=
  let '(state, diags) := State_Get req in
  let resp := resource_cluster.AppendDiagnostics resp diags in
  if diag.HasError (resource_cluster.Diagnostics resp)
  then resource_cluster.Returned resp [] else
  let tr :=
    [resource_cluster.GetMdsCluster (types.ValueString (resource_cluster.ID state))] in
  match resource_cluster.GetMdsCluster_replies client with
  | [] => resource_cluster.Polling tr
  | Err err :: _ =>
      resource_cluster.Returned
        (resource_cluster.AddError resp "Reading MDS Cluster"
           ("Could not read MDS cluster ID "
            +:+ types.ValueString (resource_cluster.ID state)
            +:+ ": " +:+ errors.Error err)) tr
  | Ok cluster :: _ =>
  let '(code, fr) :=
    resource_cluster.call_saveFromResponse (resource_cluster.Diagnostics resp)
      state cluster in
  let resp :=
    {| resource_cluster.Diagnostics := resource_cluster.f_diagnostics fr;
       resource_cluster.State := resource_cluster.State resp |} in
  let state := resource_cluster.f_state fr in
  if decide (code ≠ 0%Z) then resource_cluster.Returned resp tr else
  let diags := resource_cluster.State_Set state in
  let resp :=
    {| resource_cluster.Diagnostics :=
         diag.Append (resource_cluster.Diagnostics resp) diags;
       resource_cluster.State :=
         if diag.HasError diags then resource_cluster.State resp else Some state |} in
  resource_cluster.Returned resp (tr ++ [resource_cluster.StateSet state])
  end.

(** [Update]: send the tags of the plan, map the cluster returned. *)
Definition Update (client : UpdateClient) (req : UpdateRequest)
    (resp : resource_cluster.Response)
  : resource_cluster.Response * list update_event :=
  let '(plan, diags) := Plan_Get req in
  let resp := resource_cluster.AppendDiagnostics resp diags in
  if diag.HasError (resource_cluster.Diagnostics resp) then (resp, []) else
  let updateRequest :=
    {| Tags := types.ElementsAs (Reflection := resource_cluster.reflection)
                 (resource_cluster.Tags plan) |} in
  let tr :=
    [UpdateMdsCluster (types.ValueString (resource_cluster.ID plan)) updateRequest] in
  match UpdateMdsCluster_reply client
          (types.ValueString (resource_cluster.ID plan)) updateRequest with
  | Err err =>
      (resource_cluster.AddError resp "Updating MDS Cluster"
         ("Could not update cluster, unexpected error: " +:+ errors.Error err), tr)
  | Ok cluster =>
  let '(code, fr) :=
    resource_cluster.call_saveFromResponse (resource_cluster.Diagnostics resp)
      plan cluster in
  let resp :=
    {| resource_cluster.Diagnostics := resource_cluster.f_diagnostics fr;
       resource_cluster.State := resource_cluster.State resp |} in
  let plan := resource_cluster.f_state fr in
  if decide (code ≠ 0%Z) then (resp, tr) else
  let diags := resource_cluster.State_Set plan in
  let resp :=
    {| resource_cluster.Diagnostics :=
         diag.Append (resource_cluster.Diagnostics resp) diags;
       resource_cluster.State :=
         if diag.HasError diags then resource_cluster.State resp else Some plan |} in
  (resp, tr ++ [UpdateStateSet plan])
  end.

End Lifecycle.

(** The lookup by name [Create] makes after the create request [r]. *)
Definition lookupOf (r : controller.MdsClusterCreateRequest)
  : controller.MdsClustersQuery :=
  {| controller.q_ServiceType := controller.ServiceType r;
     controller.q_Name := controller.Name r;
     controller.FullNameMatch := true |}.

(** The trace of a run, returned or still polling. *)
Definition trace_of {A} (r : resource_cluster.run A) : list resource_cluster.event :=
  match r with
  | resource_cluster.Returned _ tr => tr
  | resource_cluster.Polling tr => tr
  end.

(** The time slept in a trace, in seconds. *)
Definition slept (tr : list resource_cluster.event) : nat :=
  sum_list_with (λ e, match e with resource_cluster.Sleep s => s | _ => 0 end) tr.

(** The calls [GetMdsCluster] of a trace, by their identifiers. *)
Definition polled (tr : list resource_cluster.event) : list string :=
  omap (λ e, match e with resource_cluster.GetMdsCluster id => Some id | _ => None end) tr.

(** The states handed to [State.Set] in a trace. *)
Definition statesSet (tr : list resource_cluster.event)
  : list resource_cluster.clusterResourceModel :=
  omap (λ e, match e with resource_cluster.StateSet st => Some st | _ => None end) tr.

(** The remote calls of a trace: everything but the sleeps and the writes
    of the state. *)
Definition isCall (e : resource_cluster.event) : bool :=
  match e with
  | resource_cluster.Sleep _ | resource_cluster.StateSet _ => false
  | _ => true
  end.

End clusterResource.

(** ** src/mds/data_source_regions.go: [Read] of the regions data source *)

Module regionsDataSource.

Definition Metadata (ProviderTypeName : string) : string :=
  ProviderTypeName +:+ "_regions".

(** [Configure] of the three data sources: the type assertion has no [ok]
    result, and panics on a value of another type. *)
Definition Configure {C} (d_client : option C) (ProviderData : provider.ProviderData C)
  : provider.outcome (option C) :=
  match ProviderData with
  | provider.NoData => provider.Done d_client
  | provider.ClientData client => provider.Done (Some client)
  | provider.OtherData typeName =>
      provider.Panic
        ("interface conversion: interface {} is " +:+ typeName +:+ ", not *mds.Client")
  end.

(** [infra_connector.DataPlaneRegionsQuery], with the fields [Read] fills. *)
Record DataPlaneRegionsQuery := {
  CPU : string;
  NodeCount : string;
  Memory : string;
  Storage : string;
  Provider : string;
  OrgId : string
}.

(** The client: the organisation of [client.Root] and the reply of the
    infra connector to a regions query. *)
Record Client := {
  Root_OrgId : string;
  GetRegionsWithDataPlanes_reply :
    DataPlaneRegionsQuery → result (gmap string (list string))
}.

Record ReadRequest := {
  Config_Get : data_source_regions.regionsDataSourceModel * list diag.Diagnostic
}.

Record Response := {
  Diagnostics : list diag.Diagnostic;
  State : option data_source_regions.regionsDataSourceModel
}.

Inductive event :=
| GetRegionsWithDataPlanes (query : DataPlaneRegionsQuery)
| StateSet (state : data_source_regions.regionsDataSourceModel).

(** The framework, for this data source: the conversions and the diagnostics
    of [resp.State.Set(ctx, &state)], which writes the state unless they
    carry an error. *)
Class Host := {
  reflection :: types.Reflection;
  State_Set : data_source_regions.regionsDataSourceModel → list diag.Diagnostic
}.

Definition set_Id (state : data_source_regions.regionsDataSourceModel)
    (v : types.String) : data_source_regions.regionsDataSourceModel :=
  {| data_source_regions.Cpu := data_source_regions.Cpu state;
     data_source_regions.Provider := data_source_regions.Provider state;
     data_source_regions.Memory := data_source_regions.Memory state;
     data_source_regions.Storage := data_source_regions.Storage state;
     data_source_regions.NodeCount := data_source_regions.NodeCount state;
     data_source_regions.Regions := data_source_regions.Regions state;
     data_source_regions.DedicatedDataPlane :=
       data_source_regions.DedicatedDataPlane state;
     data_source_regions.Id := v |}.

(** [regionQuery := &DataPlaneRegionsQuery{...}], with the organisation of
    the client set when [dedicated_data_plane] is true. *)
Definition regionQueryOf (client : Client)
    (state : data_source_regions.regionsDataSourceModel) : DataPlaneRegionsQuery :=
  {| CPU := types.ValueString (data_source_regions.Cpu state);
     NodeCount := types.ValueString (data_source_regions.NodeCount state);
     Memory := types.ValueString (data_source_regions.Memory state);
     Storage := types.ValueString (data_source_regions.Storage state);
     Provider := types.ValueString (data_source_regions.Provider state);
     OrgId :=
       if types.ValueBool (data_source_regions.DedicatedDataPlane state)
       then Root_OrgId client else "" |}.

Section Read.
Context {host : Host}.
(** The order in which [range] visits the entries of a map. *)
Variable range : gmap string (list string) → list (string * list string).

(** [Read] refreshes the Terraform state with the latest data. *)
Definition Read (client : Client) (req : ReadRequest) (resp : Response)
  : Response * list event :=
  let '(state, diags) := Config_Get req in
  let resp := {| Diagnostics := diag.Append (Diagnostics resp) diags;
                 State := State resp |} in
  let regionQuery := regionQueryOf client state in
  let tr := [GetRegionsWithDataPlanes regionQuery] in
  match GetRegionsWithDataPlanes_reply client regionQuery with
  | Err err =>
      ({| Diagnostics :=
            diag.AddError (Diagnostics resp) "Unable to Read MDS Regions:"
              (errors.Error err);
          State := State resp |}, tr)
  | Ok regions =>
  let '(code, diagnostics, state) :=
    data_source_regions.saveRegionsToState (Diagnostics resp) state (range regions) in
  let resp := {| Diagnostics := diagnostics; State := State resp |} in
  if decide (code ≠ 0%Z) then (resp, tr) else
  let state := set_Id state (types.StringValue "placeholder") in
  let diags := State_Set state in
  ({| Diagnostics := diag.Append (Diagnostics resp) diags;
      State := if diag.HasError diags then State resp else Some state |},
   tr ++ [StateSet state])
  end.

End Read.

End regionsDataSource.

(** ** src/mds/data_source_regions.go: the network-policies data source *)

Module networkPoliciesDatasource.

Definition Metadata (ProviderTypeName : string) : string :=
  ProviderTypeName +:+ "_network_policies".

(** [model.MDSPolicies] and the structs it holds. *)
Record MdsPermissionSpec := {
  Resource : string;
  Permissions : list string;
  Role : string
}.

Record MdsNetworkSpecs := {
  CIDR : string;
  NetworkPortIds : list string
}.

Record MDSPolicies := {
  p_ID : string;
  p_Name : string;
  ServiceType : string;
  ResourceIds : list string;
  PermissionsSpec : list MdsPermissionSpec;
  NetworkSpecs : list MdsNetworkSpecs
}.

Record networkPoliciesModel := {
  ID : types.String;
  Name : types.String
}.

Record networkPoliciesDataSourceModel := {
  Policies : list networkPoliciesModel;
  Names : list string;
  Id : types.String
}.

(** [customer_metadata.MdsPoliciesQuery], with the fields [Read] fills. *)
Record MdsPoliciesQuery := {
  q_Type : string;
  q_Names : list string
}.

Record Client := {
  GetPolicies_reply : MdsPoliciesQuery → result (list MDSPolicies)
}.

Record ReadRequest := {
  Config_Get : networkPoliciesDataSourceModel * list diag.Diagnostic
}.

Record Response := {
  Diagnostics : list diag.Diagnostic;
  State : option networkPoliciesDataSourceModel
}.

Inductive event :=
| GetPolicies (query : MdsPoliciesQuery)
| StateSet (state : networkPoliciesDataSourceModel).

Class Host := {
  State_Set : networkPoliciesDataSourceModel → list diag.Diagnostic
}.

(** [networkPolicy := networkPoliciesModel{...}] *)
Definition networkPolicyOf (mdsPolicyDTO : MDSPolicies) : networkPoliciesModel :=
  {| ID := types.StringValue (p_ID mdsPolicyDTO);
     Name := types.StringValue (p_Name mdsPolicyDTO) |}.

Section Read.
Context {host : Host}.
(** The constants [policy_type.NETWORK], [common.DataSource] and
    [common.NetworkPoliciesId], whose declarations are not among the
    sources. *)
Variables NETWORK DataSource NetworkPoliciesId : string.

(** [Read] refreshes the Terraform state with the latest data. *)
Definition Read (client : Client) (req : ReadRequest) (resp : Response)
  : Response * list event :=
  let '(state, diags) := Config_Get req in
  let resp := {| Diagnostics := diag.Append (Diagnostics resp) diags;
                 State := State resp |} in
  let query := {| q_Type := NETWORK; q_Names := Names state |} in
  let tr := [GetPolicies query] in
  match GetPolicies_reply client query with
  | Err err =>
      ({| Diagnostics :=
            diag.AddError (Diagnostics resp) "Unable to Read MDS Network Policies"
              (errors.Error err);
          State := State resp |}, tr)
  | Ok nwPolicies =>
  let policies :=
    fold_left (λ policies mdsPolicyDTO, policies ++ [networkPolicyOf mdsPolicyDTO])
      nwPolicies (Policies state) in
  let state :=
    {| Policies := policies; Names := Names state;
       Id := types.StringValue (DataSource +:+ NetworkPoliciesId) |} in
  let diags := State_Set state in
  ({| Diagnostics := diag.Append (Diagnostics resp) diags;
      State := if diag.HasError diags then State resp else Some state |},
   tr ++ [StateSet state])
  end.

End Read.

End networkPoliciesDatasource.

(** ** The service-roles data source: its type name *)

Module serviceRolesDatasource.

Definition Metadata (ProviderTypeName : string) : string :=
  ProviderTypeName +:+ "_service_roles".

End serviceRolesDatasource.

(** ** More of the reference framework *)

Module reference_hosts.

Definition regionsHost : regionsDataSource.Host :=
  {| regionsDataSource.reflection := reference.reflection;
     regionsDataSource.State_Set _ := [] |}.

Definition policiesHost : networkPoliciesDatasource.Host :=
  {| networkPoliciesDatasource.State_Set _ := [] |}.

(** The order of the entries of a map by its keys, as one order [range] can
    take. *)
Definition range (m : gmap string (list string)) : list (string * list string) :=
  map_to_list m.

Definition regionsClient (reply : result (gmap string (list string)))
  : regionsDataSource.Client :=
  {| regionsDataSource.Root_OrgId := "org-1";
     regionsDataSource.GetRegionsWithDataPlanes_reply _ := reply |}.

Definition regionsRequest (dedicated : types.Bool) : regionsDataSource.ReadRequest :=
  {| regionsDataSource.Config_Get :=
       ({| data_source_regions.Cpu := types.StringValue "1";
           data_source_regions.Provider := types.StringValue "aws";
           data_source_regions.Memory := types.StringValue "4Gi";
           data_source_regions.Storage := types.StringValue "4Gi";
           data_source_regions.NodeCount := types.StringValue "1";
           data_source_regions.Regions := [];
           data_source_regions.DedicatedDataPlane := dedicated;
           data_source_regions.Id := types.StringNull |}, []) |}.

Definition emptyRegionsResponse : regionsDataSource.Response :=
  {| regionsDataSource.Diagnostics := []; regionsDataSource.State := None |}.

Definition twoRegions : gmap string (list string) :=
  {[ "eu-west-2" := ["dp-1"]; "us-east-2" := ["dp-2"; "dp-3"] ]}.

Definition policy (id name : string) : networkPoliciesDatasource.MDSPolicies :=
  {| networkPoliciesDatasource.p_ID := id;
     networkPoliciesDatasource.p_Name := name;
     networkPoliciesDatasource.ServiceType := "RABBITMQ";
     networkPoliciesDatasource.ResourceIds := [];
     networkPoliciesDatasource.PermissionsSpec := [];
     networkPoliciesDatasource.NetworkSpecs := [] |}.

Definition updateClient (reply : result model.MdsCluster)
  : clusterResource.UpdateClient :=
  {| clusterResource.UpdateMdsCluster_reply _ _ := reply |}.

Definition updateRequest (plan : resource_cluster.clusterResourceModel)
  : clusterResource.UpdateRequest :=
  {| clusterResource.Plan_Get := (plan, []) |}.

Definition readRequest (state : resource_cluster.clusterResourceModel)
  : clusterResource.ReadRequest :=
  {| clusterResource.State_Get := (state, []) |}.

(** The reference plan, renamed and moved to another region. *)
Definition renamedPlan : resource_cluster.clusterResourceModel :=
  resource_cluster.store (resource_cluster.set_Name (types.StringValue "renamed"))
    (resource_cluster.store (resource_cluster.set_Region (types.StringValue "us-east-2"))
       reference.plan).

(** A client that rejects the create and delete requests. *)
Definition rejectingClient : resource_cluster.Client :=
  {| resource_cluster.CreateMdsCluster_reply := Err (errors.New "quota exceeded");
     resource_cluster.GetMdsClusters_reply := Ok [reference.ready];
     resource_cluster.GetMdsCluster_replies := [Ok reference.ready];
     resource_cluster.DeleteMdsCluster_reply := Err (errors.New "forbidden") |}.

Definition policiesClient (reply : result (list networkPoliciesDatasource.MDSPolicies))
  : networkPoliciesDatasource.Client :=
  {| networkPoliciesDatasource.GetPolicies_reply _ := reply |}.

Definition policiesRequest (names : list string)
  : networkPoliciesDatasource.ReadRequest :=
  {| networkPoliciesDatasource.Config_Get :=
       ({| networkPoliciesDatasource.Policies := [];
           networkPoliciesDatasource.Names := names;
           networkPoliciesDatasource.Id := types.StringNull |}, []) |}.

Definition emptyPoliciesResponse : networkPoliciesDatasource.Response :=
  {| networkPoliciesDatasource.Diagnostics := [];
     networkPoliciesDatasource.State := None |}.

End reference_hosts.
(** * Properties *)

(** ** Diagnostics *)

Lemma HasError_app (d1 d2 : list diag.Diagnostic) :
  diag.HasError (d1 ++ d2) = diag.HasError d1 || diag.HasError d2.
Proof. unfold diag.HasError. apply existsb_app. Qed.

Lemma HasError_elem (d : diag.Diagnostic) (diags : list diag.Diagnostic) :
  d ∈ diags → diag.isError d = true → diag.HasError diags = true.
Proof.
  intros Hin Herr. unfold diag.HasError. apply existsb_exists.
  exists d. split; [by apply list_elem_of_In | done].
Qed.

Lemma HasError_Append (diags new : list diag.Diagnostic) :
  diag.HasError (diag.Append diags new) = diag.HasError diags || diag.HasError new.
Proof.
  revert diags. induction new as [|d new IH]; intros diags; simpl.
  - by rewrite orb_false_r.
  - rewrite IH. unfold diag.Contains. case_bool_decide as Hin.
    + destruct (diag.isError d) eqn:Hd; simpl; [|done].
      rewrite (HasError_elem d diags Hin Hd). done.
    + rewrite HasError_app. simpl. rewrite orb_false_r. by rewrite orb_assoc.
Qed.

Lemma HasError_AddError (diags : list diag.Diagnostic) (summary detail : string) :
  diag.HasError (diag.AddError diags summary detail) = true.
Proof. unfold diag.AddError. rewrite HasError_Append. simpl. apply orb_true_r. Qed.

(** ** The cluster mapper *)

Section ClusterMapper.
Context {fw : resource_cluster.Framework}.
Import resource_cluster.

Ltac unfold_mapper :=
  cbv [call_saveFromResponse saveFromResponse mbind Stmt_bind mret Stmt_ret
       assign check read_state return_ store target f_state f_diagnostics
       f_assigned app Metadata].

Ltac unfold_saved :=
  cbv [f_state metadataObjectOf tagsOf metadataModelOf savedStrings store Metadata].

Lemma HasError_Append_false (d1 d2 : list diag.Diagnostic) :
  diag.HasError (diag.Append d1 d2) = false → diag.HasError d1 = false.
Proof. rewrite HasError_Append. by intros [? ?]%orb_false_elim. Qed.

(** Every call of the mapper ends in one of the three ways of [saved]. *)
Lemma saveFromResponse_saved d s c :
  saved d s c (call_saveFromResponse d s c).1 (call_saveFromResponse d s c).2.
Proof.
  destruct s.
  unfold_mapper.
  destruct (model.Metadata c) as [md|] eqn:Em.
  - destruct (types.ListValueFrom _ _) as [l d1] eqn:El; cbn [fst snd].
    destruct (diag.HasError (diag.Append d d1)) eqn:E1; cbn [fst snd].
    { by apply saved_strings. }
    apply HasError_Append_false in E1 as E0.
    destruct (ObjectValueFrom _ _) as [o d2] eqn:Eo.
    destruct (diag.HasError (diag.Append _ d2)) eqn:E2; cbn [fst snd].
    { by apply saved_strings. }
    destruct (types.SetValueFrom _ _) as [t d3] eqn:Et.
    destruct (diag.HasError (diag.Append _ d3)) eqn:E3; cbn [fst snd];
      [apply saved_metadata | apply saved_all]; try done;
      unfold_saved; rewrite ?Em, ?El; cbn [fst snd]; rewrite ?Eo, ?Et; done.
  - destruct (ObjectValueFrom _ _) as [o d2] eqn:Eo.
    destruct (diag.HasError (diag.Append _ d2)) eqn:E2; cbn [fst snd].
    { by apply saved_strings. }
    apply HasError_Append_false in E2 as E0.
    destruct (types.SetValueFrom _ _) as [t d3] eqn:Et.
    destruct (diag.HasError (diag.Append _ d3)) eqn:E3; cbn [fst snd];
      [apply saved_metadata | apply saved_all]; try done;
      unfold_saved; rewrite ?Em; rewrite ?Eo, ?Et; done.
Qed.

(** A call that returns 0 has made every assignment. *)
Lemma saveFromResponse_ok d s c :
  (call_saveFromResponse d s c).1 = 0%Z →
  diag.HasError d = false ∧
  diag.HasError (f_diagnostics (call_saveFromResponse d s c).2) = false ∧
  f_state (call_saveFromResponse d s c).2 =
    store (set_Tags (tagsOf c))
      (store (set_Metadata (metadataObjectOf s c)) (savedStrings s c)) ∧
  f_assigned (call_saveFromResponse d s c).2 = strings ++ [metadata; tags].
Proof.
  intros Hc. pose proof (saveFromResponse_saved d s c) as H.
  rewrite Hc in H. by inversion H.
Qed.

(** A call that does not return 0 leaves an error in the diagnostics. *)
Lemma saveFromResponse_failed d s c :
  (call_saveFromResponse d s c).1 ≠ 0%Z →
  diag.HasError (f_diagnostics (call_saveFromResponse d s c).2) = true.
Proof.
  intros Hc. pose proof (saveFromResponse_saved d s c) as H.
  by inversion H as [? E|? ? E|? ? ? ? ? E0]; [..|rewrite <- E0 in Hc].
Qed.

Lemma metadataObjectOf_saved (Hk : keeps_types) s c t :
  metadataObjectOf
    (store (set_Tags t) (store (set_Metadata (metadataObjectOf s c)) (savedStrings s c))) c
  = metadataObjectOf s c.
Proof.
  destruct s. cbv [store savedStrings]. unfold metadataObjectOf at 1.
  cbn [Metadata]. unfold metadataObjectOf. by rewrite Hk.
Qed.

(** A second call on the state a first call left, with diagnostics that
    carry an error or after a first call that returned 0, leaves the state
    as it is. *)
Lemma saveFromResponse_again (Hk : keeps_types) d s c d' :
  (call_saveFromResponse d s c).1 = 0%Z ∨ diag.HasError d' = true →
  f_state (call_saveFromResponse d' (f_state (call_saveFromResponse d s c).2) c).2
  = f_state (call_saveFromResponse d s c).2.
Proof.
  intros Hc.
  pose proof (saveFromResponse_saved d s c) as H1.
  pose proof (saveFromResponse_saved d' (f_state (call_saveFromResponse d s c).2) c) as H2.
  destruct (call_saveFromResponse d s c) as [code1 fr1]. cbn [fst snd] in *.
  destruct (call_saveFromResponse d' (f_state fr1) c) as [code2 fr2].
  cbn [fst snd] in *.
  destruct H2 as [fr2 E2 S2 _|fr2 E0 E2 S2 _|fr2 E0 E2 S2 _]; rewrite S2.
  - destruct H1 as [fr1 _ S1 _|fr1 _ _ S1 _|fr1 _ _ S1 _]; rewrite S1; by destruct s.
  - destruct Hc as [->|Hc]; [|congruence].
    inversion H1 as [| |? _ _ S1 _]; subst. rewrite S1.
    rewrite (metadataObjectOf_saved Hk). by destruct s.
  - destruct Hc as [->|Hc]; [|congruence].
    inversion H1 as [| |? _ _ S1 _]; subst. rewrite S1.
    rewrite (metadataObjectOf_saved Hk). by destruct s.
Qed.

End ClusterMapper.

Section ClusterMapperClaims.
Context {fw : resource_cluster.Framework}.
Import resource_cluster.

(** C7 (amended).  One call of [saveFromResponse] never assigns [dedicated],
    [shared] and [network_policy_ids], which keep their pre-call values; it
    assigns each of the eleven string attributes exactly once, from the
    response; and when it returns 0 it has also assigned [metadata] and [tags]
    exactly once, the metadata object being built from the empty string for
    [manager_uri] and [connection_uri] and the null list of strings for
    [metrics_endpoints] when the response has no metadata. *)
Theorem saveFromResponse_assignments
    (d : list diag.Diagnostic) (s : clusterResourceModel) (c : model.MdsCluster) :
  let r := call_saveFromResponse d s c in
  let s' := f_state r.2 in
  (assignments dedicated r.2 = 0 ∧ assignments shared r.2 = 0 ∧
   assignments network_policy_ids r.2 = 0 ∧
   Dedicated s' = Dedicated s ∧ Shared s' = Shared s ∧
   NetworkPolicyIds s' = NetworkPolicyIds s) ∧
  Forall (λ a, assignments a r.2 = 1) strings ∧
  (ID s' = types.StringValue (model.ID c) ∧
   Name s' = types.StringValue (model.Name c) ∧
   ServiceType s' = types.StringValue (model.ServiceType c) ∧
   Provider s' = types.StringValue (model.Provider c) ∧
   InstanceSize s' = types.StringValue (model.InstanceSize c) ∧
   Region s' = types.StringValue (model.Region c) ∧
   Status s' = types.StringValue (model.Status c) ∧
   OrgId s' = types.StringValue (model.OrgId c) ∧
   DataPlaneId s' = types.StringValue (model.DataPlaneId c) ∧
   LastUpdated s' = types.StringValue (model.LastUpdated c) ∧
   Created s' = types.StringValue (model.Created c)) ∧
  (r.1 = 0%Z →
   assignments metadata r.2 = 1 ∧ assignments tags r.2 = 1 ∧
   Tags s' = (types.SetValueFrom types.StringType (model.Tags c)).1 ∧
   (model.Metadata c = None →
    Metadata s' =
      (ObjectValueFrom (types.AttributeTypes (Metadata s))
         {| ManagerUri := types.StringValue "";
            ConnectionUri := types.StringValue "";
            MetricsEndpoints := types.ListNull types.StringType |}).1) ∧
   (∀ md, model.Metadata c = Some md →
    Metadata s' =
      (ObjectValueFrom (types.AttributeTypes (Metadata s))
         {| ManagerUri := types.StringValue (model.ManagerUri md);
            ConnectionUri := types.StringValue (model.ConnectionUri md);
            MetricsEndpoints :=
              (types.ListValueFrom types.StringType (model.MetricsEndpoints md)).1 |}).1)).
Proof.
  intros r s'. subst s'.
  pose proof (saveFromResponse_saved d s c) as H. fold r in H.
  destruct r as [code fr]. cbn [fst snd] in *.
  assert (Hm : ∀ o, Metadata (store (set_Metadata o) (savedStrings s c)) = o)
    by (intros; by destruct s).
  assert (Hmt : ∀ o t,
    Metadata (store (set_Tags t) (store (set_Metadata o) (savedStrings s c))) = o)
    by (intros; by destruct s).
  assert (Ht : ∀ o t,
    Tags (store (set_Tags t) (store (set_Metadata o) (savedStrings s c))) = t)
    by (intros; by destruct s).
  destruct H as [fr _ S A|fr _ _ S A|fr _ _ S A]; unfold assignments; rewrite S, A.
  - split_and!; try (by destruct s); try discriminate. repeat constructor.
  - split_and!; try (by destruct s); try discriminate. repeat constructor.
  - split_and!; try (by destruct s). { repeat constructor. }
    intros _. split_and!; try done; try apply Ht.
    + intros Em. rewrite Hmt. unfold metadataObjectOf, metadataModelOf. by rewrite Em.
    + intros md Em. rewrite Hmt. unfold metadataObjectOf, metadataModelOf. by rewrite Em.
Qed.

End ClusterMapperClaims.

(** C7 as stated fails: on a plan with [dedicated = true] and a [READY]
    response, the call returns 0 and yet not every declared attribute has been
    assigned exactly once, [dedicated] never being assigned. *)
Lemma saveFromResponse_skips_declared :
  let r := resource_cluster.call_saveFromResponse (fw := reference.framework)
             [] reference.plan reference.ready in
  r.1 = 0%Z ∧
  ¬ Forall (λ a, resource_cluster.assignments a r.2 = 1) resource_cluster.declared ∧
  resource_cluster.Dedicated (resource_cluster.f_state r.2)
  = resource_cluster.Dedicated reference.plan.
Proof.
  split_and!.
  - vm_compute. reflexivity.
  - intros H.
    assert (Hd : resource_cluster.declared !! 9 = Some resource_cluster.dedicated)
      by reflexivity.
    pose proof (Forall_lookup_1 _ _ _ _ H Hd) as H9.
    vm_compute in H9. discriminate.
  - vm_compute. reflexivity.
Qed.

(** ** The regions mapper *)

Section RegionsMapper.
Context {rf : types.Reflection}.
Import data_source_regions.

Lemma set_Regions_same s : set_Regions s (Regions s ++ []) = s.
Proof. destruct s. unfold set_Regions. cbn. by rewrite app_nil_r. Qed.

Lemma set_Regions_twice s l1 l2 :
  set_Regions (set_Regions s l1) l2 = set_Regions s l2.
Proof. done. Qed.

(** A call that returns 0 has appended one entry per region visited. *)
Lemma saveRegionsToState_ok visit : ∀ d s d' s',
  saveRegionsToState d s visit = (0%Z, d', s') →
  s' = set_Regions s (Regions s ++ (entryOf <$> visit)).
Proof.
  induction visit as [|[regionName dataPlaneIds] visit IH]; intros d s d' s' H.
  - injection H as _ <-. by rewrite set_Regions_same.
  - cbn [saveRegionsToState] in H.
    destruct (types.ListValueFrom _ _) as [l diags] eqn:El.
    destruct (diag.HasError _); [discriminate|].
    apply IH in H. rewrite H, set_Regions_twice. f_equal.
    cbn [Regions set_Regions fmap list_fmap]. rewrite <- app_assoc. cbn [app].
    unfold entryOf. cbn [fst snd]. by rewrite El.
Qed.

Lemma Regions_set_Regions s l : Regions (set_Regions s l) = l.
Proof. done. Qed.

End RegionsMapper.

Section MappersTwice.
Context {fw : resource_cluster.Framework}.
Import resource_cluster data_source_regions.

(** C6 (amended).  The cluster mapper is idempotent: a second call on the
    state the first call left, with the diagnostics it left or, after a first
    call that returned 0, with any diagnostics, leaves that state unchanged.
    The regions mapper is not: each call that returns 0 appends one entry per
    region of the response to the regions of the state, so that two calls on a
    response of n regions leave a list longer by 2n, and a state that differs
    from the one after the first call whenever the response is not empty. *)
Theorem mappers_applied_twice (Hk : keeps_types) :
  (∀ d s c,
     let r1 := call_saveFromResponse d s c in
     f_state (call_saveFromResponse (f_diagnostics r1.2) (f_state r1.2) c).2
     = f_state r1.2) ∧
  (∀ d s c d',
     let r1 := call_saveFromResponse d s c in
     r1.1 = 0%Z →
     f_state (call_saveFromResponse d' (f_state r1.2) c).2 = f_state r1.2) ∧
  (∀ regions visit1 visit2 d s d1 s1 d2 s2,
     visits regions visit1 → visits regions visit2 →
     saveRegionsToState d s visit1 = (0%Z, d1, s1) →
     saveRegionsToState d1 s1 visit2 = (0%Z, d2, s2) →
     Regions s1 = Regions s ++ (entryOf <$> visit1) ∧
     Regions s2 = Regions s ++ (entryOf <$> visit1) ++ (entryOf <$> visit2) ∧
     length (Regions s2) = length (Regions s) + 2 * size regions ∧
     (regions ≠ ∅ → s2 ≠ s1)).
Proof.
  split_and!.
  - intros d s c r1. subst r1.
    destruct (decide ((call_saveFromResponse d s c).1 = 0%Z)) as [H0|H0].
    + apply (saveFromResponse_again Hk). by left.
    + apply (saveFromResponse_again Hk). right.
      by apply saveFromResponse_failed.
  - intros d s c d' r1 H0. apply (saveFromResponse_again Hk). by left.
  - intros regions visit1 visit2 d s d1 s1 d2 s2 V1 V2 H1 H2.
    apply saveRegionsToState_ok in H1, H2.
    assert (L1 : length visit1 = size regions).
    { unfold visits in V1. by rewrite V1, length_map_to_list. }
    assert (L2 : length visit2 = size regions).
    { unfold visits in V2. by rewrite V2, length_map_to_list. }
    assert (R1 : Regions s1 = Regions s ++ (entryOf <$> visit1)).
    { by rewrite H1, Regions_set_Regions. }
    assert (R2 : Regions s2 = Regions s ++ (entryOf <$> visit1) ++ (entryOf <$> visit2)).
    { by rewrite H2, Regions_set_Regions, R1, app_assoc. }
    split_and!; [done|done|..].
    + rewrite R2, !length_app, !length_fmap. lia.
    + intros Hne Heq.
      assert (Hlen : length (Regions s2) = length (Regions s1)) by by rewrite Heq.
      rewrite R2, R1, !length_app, !length_fmap, L1, L2 in Hlen.
      assert (size regions = 0) as Hz%map_size_empty_inv by lia. done.
Qed.

End MappersTwice.

(** C6 as stated fails for the regions mapper: on a response with one region
    both calls return 0, the first leaves one region in the state and the second
    leaves two. *)
Lemma saveRegionsToState_not_idempotent :
  let visit := map_to_list reference.oneRegion in
  let r1 := data_source_regions.saveRegionsToState (rf := reference.reflection)
              [] reference.regionsState visit in
  let r2 := data_source_regions.saveRegionsToState (rf := reference.reflection)
              r1.1.2 r1.2 visit in
  r1.1.1 = 0%Z ∧ r2.1.1 = 0%Z ∧
  length (data_source_regions.Regions r1.2) = 1 ∧
  length (data_source_regions.Regions r2.2) = 2 ∧
  r2.2 ≠ r1.2.
Proof.
  vm_compute. split_and!; try reflexivity. discriminate.
Qed.

(** The reference framework keeps the attribute types, and C6 (amended) at
    it: a second call of the cluster mapper on the reference plan changes
    nothing. *)
Lemma mappers_applied_twice_witness :
  resource_cluster.keeps_types (fw := reference.framework) ∧
  let r1 := resource_cluster.call_saveFromResponse (fw := reference.framework)
              [] reference.plan reference.ready in
  resource_cluster.f_state
    (resource_cluster.call_saveFromResponse (fw := reference.framework)
       (resource_cluster.f_diagnostics r1.2) (resource_cluster.f_state r1.2)
       reference.ready).2
  = resource_cluster.f_state r1.2.
Proof.
  assert (Hk : resource_cluster.keeps_types (fw := reference.framework)).
  { intros tys m. simpl. by case_decide. }
  split; [exact Hk|].
  exact (proj1 (mappers_applied_twice (fw := reference.framework) Hk)
           [] reference.plan reference.ready).
Defined.

(** ** The polling loops *)

Section Polling.
Import resource_cluster.

Lemma pending_statuses (c : model.MdsCluster) :
  pending c ↔ model.Status c ≠ "READY" ∧ model.Status c ≠ "FAILED".
Proof.
  unfold pending, classify. repeat case_decide; split; (done || tauto).
Qed.

Lemma fetches_app (tr1 tr2 : list event) :
  fetches (tr1 ++ tr2) = fetches tr1 + fetches tr2.
Proof. unfold fetches. by rewrite List.filter_app, length_app. Qed.

Lemma polls_cons (c : model.MdsCluster) (cs : list model.MdsCluster) :
  polls (c :: cs) = [Sleep 10; GetMdsCluster (model.ID c)] ++ polls cs.
Proof. done. Qed.

Lemma fetches_polls (cs : list model.MdsCluster) : fetches (polls cs) = length cs.
Proof.
  induction cs as [|c cs IH]; [done|].
  rewrite polls_cons, fetches_app, IH. done.
Qed.

(** One turn of the loop of [Create]. *)
Lemma awaitSettled_terminal c replies tr :
  ¬ pending c → awaitSettled c replies tr = Returned (Ok c) tr.
Proof.
  rewrite pending_statuses. intros H.
  destruct replies as [|[]]; cbn [awaitSettled]; by case_decide.
Qed.

Lemma awaitSettled_next c fetched replies tr :
  pending c →
  awaitSettled c (Ok fetched :: replies) tr
  = awaitSettled fetched replies (tr ++ [Sleep 10; GetMdsCluster (model.ID c)]).
Proof. rewrite pending_statuses. intros H. cbn [awaitSettled]. by case_decide. Qed.

Lemma awaitSettled_error c err replies tr :
  pending c →
  awaitSettled c (Err err :: replies) tr
  = Returned (Err err) (tr ++ [Sleep 10; GetMdsCluster (model.ID c)]).
Proof. rewrite pending_statuses. intros H. cbn [awaitSettled]. by case_decide. Qed.

Lemma awaitSettled_blocked c tr :
  pending c →
  awaitSettled c [] tr = Polling (tr ++ [Sleep 10; GetMdsCluster (model.ID c)]).
Proof. rewrite pending_statuses. intros H. cbn [awaitSettled]. by case_decide. Qed.

(** The loop goes through the pending snapshots [pre], one poll each. *)
Lemma awaitSettled_pending pre : ∀ c0 cs cl rest tr,
  Forall pending pre → c0 :: cs = pre ++ [cl] →
  awaitSettled c0 ((Ok <$> cs) ++ rest) tr = awaitSettled cl rest (tr ++ polls pre).
Proof.
  induction pre as [|p pre IH]; intros c0 cs cl rest tr Hp Heq.
  - injection Heq as -> ->. by rewrite app_nil_r.
  - injection Heq as -> ->. apply Forall_cons in Hp as [Hp0 Hp].
    destruct pre as [|p' pre'].
    + cbn [app fmap list_fmap]. rewrite awaitSettled_next by done.
      by rewrite polls_cons, app_nil_r.
    + cbn [app fmap list_fmap]. rewrite awaitSettled_next by done.
      rewrite (IH p' (pre' ++ [cl]) cl rest _ Hp eq_refl).
      f_equal. rewrite (polls_cons p). by rewrite <- app_assoc.
Qed.

(** What the loop of [Create] returns is a terminal snapshot the client can
    return to a fetch, or the snapshot it started from. *)
Lemma awaitSettled_returns replies : ∀ c tr c' tr',
  awaitSettled c replies tr = Returned (Ok c') tr' →
  ¬ pending c' ∧ (c' = c ∨ Ok c' ∈ replies).
Proof.
  induction replies as [|[fetched|err] replies IH]; intros c tr c' tr' H.
  - destruct (decide (pending c)) as [Hp|Hp].
    + by rewrite awaitSettled_blocked in H.
    + rewrite awaitSettled_terminal in H by done. injection H as <- _. auto.
  - destruct (decide (pending c)) as [Hp|Hp].
    + rewrite awaitSettled_next in H by done. apply IH in H as [Ht [->|Hin]].
      * split; [done|]. right. by left.
      * split; [done|]. right. by right.
    + rewrite awaitSettled_terminal in H by done. injection H as <- _. auto.
  - destruct (decide (pending c)) as [Hp|Hp].
    + by rewrite awaitSettled_error in H.
    + rewrite awaitSettled_terminal in H by done. injection H as <- _. auto.
Qed.

(** One turn of the loop of [Delete]. *)
Lemma notFound_dec err : Decision (notFound err).
Proof.
  unfold notFound. destruct (errors.As_ApiError err) as [[code msg]|].
  - destruct (decide (code = http.StatusNotFound)) as [->|Hne].
    + left. by exists msg.
    + right. intros [msg' [=]]. done.
  - right. by intros [msg' ?].
Defined.

Lemma awaitGone_next id c replies tr :
  awaitGone id (Ok c :: replies) tr
  = awaitGone id replies (tr ++ [Sleep 10; GetMdsCluster id]).
Proof. done. Qed.

Lemma awaitGone_notFound id err replies tr :
  notFound err →
  awaitGone id (Err err :: replies) tr
  = Returned None (tr ++ [Sleep 10; GetMdsCluster id]).
Proof. intros [msg H]. cbn [awaitGone]. rewrite H. by case_decide. Qed.

Lemma awaitGone_error id err replies tr :
  ¬ notFound err →
  awaitGone id (Err err :: replies) tr
  = Returned (Some err) (tr ++ [Sleep 10; GetMdsCluster id]).
Proof.
  intros H. cbn [awaitGone].
  destruct (errors.As_ApiError err) as [[code msg]|] eqn:E; [|done].
  case_decide as Hc; [|done]. destruct H. exists msg. by rewrite E, Hc.
Qed.

Lemma awaitGone_blocked id tr :
  awaitGone id [] tr = Polling (tr ++ [Sleep 10; GetMdsCluster id]).
Proof. done. Qed.

(** The loop of [Delete] goes through the successful fetches, one poll each. *)
Lemma awaitGone_found id cs : ∀ rest tr,
  ∃ tr', fetches tr' = fetches tr + length cs ∧
         awaitGone id ((Ok <$> cs) ++ rest) tr = awaitGone id rest tr'.
Proof.
  induction cs as [|c cs IH]; intros rest tr.
  - exists tr. split; [cbn [length]; lia|done].
  - cbn [fmap list_fmap app]. rewrite awaitGone_next.
    destruct (IH rest (tr ++ [Sleep 10; GetMdsCluster id])) as (tr' & Hf & ->).
    exists tr'. split; [|done].
    rewrite Hf, fetches_app. cbn [length]. unfold fetches at 2. cbn. lia.
Qed.

(** The loop of [Delete] only breaks on a not-found error. *)
Lemma awaitGone_breaks id replies : ∀ tr tr',
  awaitGone id replies tr = Returned None tr' →
  ∃ cs err rest,
    replies = (Ok <$> cs) ++ Err err :: rest ∧ notFound err ∧
    fetches tr' = fetches tr + length cs + 1.
Proof.
  induction replies as [|[c|err] replies IH]; intros tr tr' H.
  - done.
  - rewrite awaitGone_next in H. apply IH in H as (cs & err & rest & -> & Hn & Hf).
    exists (c :: cs), err, rest. split_and!; [done|done|].
    rewrite Hf, fetches_app. cbn [length]. unfold fetches at 2. cbn. lia.
  - destruct (notFound_dec err) as [Hn|Hn].
    + rewrite awaitGone_notFound in H by done. injection H as <-.
      exists [], err, replies. split_and!; [done|done|].
      rewrite fetches_app. cbn [length]. unfold fetches at 2. cbn. lia.
    + by rewrite awaitGone_error in H.
Qed.

End Polling.

(** ** Create and Delete *)

Section Lifecycle.
Context {fw : resource_cluster.Framework}.
Import resource_cluster.

(** Once the plan is decoded, the create request accepted and the lookup by
    name answered with a cluster that has not failed, [Create] is its loop
    followed by the mapping of the cluster the loop ends with. *)
Lemma Create_submitted client req resp plan diags c0 others :
  Plan_Get req = (plan, diags) →
  diag.HasError (diag.Append (Diagnostics resp) diags) = false →
  (∃ u, CreateMdsCluster_reply client = Ok u) →
  GetMdsClusters_reply client = Ok (c0 :: others) →
  model.Status c0 ≠ "FAILED" →
  ∃ tr0, fetches tr0 = 1 ∧
    Create client req resp =
    match awaitSettled c0 (GetMdsCluster_replies client) tr0 with
    | Polling tr => Polling tr
    | Returned (Err err) tr =>
        Returned (AddError (AppendDiagnostics resp diags) "Fetching cluster"
                    ("Could not fetch cluster by ID, unexpected error: "
                     +:+ errors.Error err)) tr
    | Returned (Ok c) tr =>
        let r := call_saveFromResponse (diag.Append (Diagnostics resp) diags) plan c in
        if decide (r.1 ≠ 0%Z) then
          Returned {| Diagnostics := f_diagnostics r.2; State := State resp |} tr
        else
          Returned
            {| Diagnostics := diag.Append (f_diagnostics r.2) (State_Set (f_state r.2));
               State := if diag.HasError (State_Set (f_state r.2)) then State resp
                        else Some (f_state r.2) |}
            (tr ++ [StateSet (f_state r.2)])
    end.
Proof.
  intros Hplan Herr [u Hcreate] Hlookup Hstatus.
  unfold Create. rewrite Hplan. cbn [AppendDiagnostics Diagnostics State].
  rewrite Herr, Hcreate, Hlookup. case_decide; [done|].
  match goal with |- context [awaitSettled c0 _ ?T] => exists T end.
  split; [done|].
  destruct (awaitSettled _ _ _) as [[c|err] tr|tr]; [|done..].
  by destruct (call_saveFromResponse _ _ _) as [code fr].
Qed.

(** The first snapshot of a fetch sequence made of pending snapshots and a
    last one that has not failed, or of pending ones only, has not failed. *)
Lemma head_not_failed c0 cs pre c :
  c0 :: cs = pre ++ [c] → Forall pending pre →
  (pre = [] → model.Status c ≠ "FAILED") → model.Status c0 ≠ "FAILED".
Proof.
  intros Heq Hp Hc. destruct pre as [|p pre].
  - injection Heq as -> _. by apply Hc.
  - injection Heq as -> _. apply Forall_cons in Hp as [Hp _].
    by apply pending_statuses in Hp as [_ ?].
Qed.

(** [Create] on a fetch sequence of pending snapshots followed by a terminal
    one: it fetches each snapshot once and maps the last one. *)
Lemma Create_settled client req resp plan diags pre c rest :
  Plan_Get req = (plan, diags) →
  diag.HasError (diag.Append (Diagnostics resp) diags) = false →
  (∃ u, CreateMdsCluster_reply client = Ok u) →
  fetchSequence client (pre ++ [c]) rest →
  Forall pending pre →
  ¬ pending c →
  (pre = [] → model.Status c ≠ "FAILED") →
  (call_saveFromResponse (diag.Append (Diagnostics resp) diags) plan c).1 = 0%Z →
  let st := f_state (call_saveFromResponse (diag.Append (Diagnostics resp) diags) plan c).2 in
  ∃ resp' tr,
    Create client req resp = Returned resp' (tr ++ [StateSet st]) ∧
    fetches tr = length pre + 1 ∧
    st = store (set_Tags (tagsOf c))
           (store (set_Metadata (metadataObjectOf plan c)) (savedStrings plan c)) ∧
    (diag.HasError (State_Set st) = false →
     State resp' = Some st ∧ diag.HasError (Diagnostics resp') = false).
Proof.
  intros Hplan Herr Hcreate (c0 & others & cs & Hlookup & Hreplies & Hseq) Hpre Hc Hf Hcode st.
  destruct (Create_submitted client req resp plan diags c0 others)
    as (tr0 & Hf0 & ->); [done..| |].
  { by eapply head_not_failed. }
  rewrite Hreplies, (awaitSettled_pending pre c0 cs c) by done.
  rewrite awaitSettled_terminal by done. cbn zeta.
  case_decide; [done|].
  eexists _, _. split; [done|].
  destruct (saveFromResponse_ok _ _ _ Hcode) as (_ & He & Hs & _).
  split_and!.
  - rewrite fetches_app, fetches_polls. lia.
  - done.
  - intros Hset. cbn [State Diagnostics]. fold st. rewrite Hset. split; [done|].
    rewrite HasError_Append. fold st. by rewrite He, Hset.
Qed.

(** [Create] returns in one of two ways: with an error diagnostic and the
    state untouched, or after its loop has ended on a terminal snapshot, with
    the plan mapped from that snapshot written as the state. *)
Lemma Create_returns client req resp resp' tr :
  Create client req resp = Returned resp' tr →
  (State resp' = State resp ∧ diag.HasError (Diagnostics resp') = true) ∨
  ∃ c plan diags,
    Plan_Get req = (plan, diags) ∧ fetched client c ∧ ¬ pending c ∧
    (call_saveFromResponse (diag.Append (Diagnostics resp) diags) plan c).1 = 0%Z ∧
    State resp' =
      Some (f_state (call_saveFromResponse (diag.Append (Diagnostics resp) diags) plan c).2).
Proof.
  assert (Hadd : ∀ r summary detail,
    State (AddError r summary detail) = State r ∧
    diag.HasError (Diagnostics (AddError r summary detail)) = true).
  { intros. cbn [AddError State Diagnostics]. by rewrite HasError_AddError. }
  unfold Create. destruct (Plan_Get req) as [plan diags] eqn:Hplan.
  cbn [AppendDiagnostics Diagnostics State].
  destruct (diag.HasError (diag.Append _ _)) eqn:Herr.
  { intros [= <- _]. left. cbn [AppendDiagnostics Diagnostics State]. by rewrite Herr. }
  destruct (CreateMdsCluster_reply client) as [u|err];
    [|intros [= <- _]; left; apply (Hadd (AppendDiagnostics resp diags))].
  destruct (GetMdsClusters_reply client) as [[|c0 others]|err] eqn:Hlookup;
    [intros [= <- _]; left; apply (Hadd (AppendDiagnostics resp diags))|
    |intros [= <- _]; left; apply (Hadd (AppendDiagnostics resp diags))].
  case_decide; [intros [= <- _]; left; apply (Hadd (AppendDiagnostics resp diags))|].
  destruct (awaitSettled _ _ _) as [[c|err] tr1|tr1] eqn:Hloop;
    [|intros [= <- _]; left; apply (Hadd (AppendDiagnostics resp diags))|done].
  apply awaitSettled_returns in Hloop as [Hc Hin].
  pose proof (saveFromResponse_failed (diag.Append (Diagnostics resp) diags) plan c) as Hfail.
  destruct (call_saveFromResponse _ _ _) as [code fr] eqn:Hcall. cbn [fst snd] in *.
  case_decide as Hcode.
  { intros [= <- _]. left. cbn [State Diagnostics]. by rewrite Hfail. }
  intros [= <- _]. cbn [State Diagnostics].
  destruct (diag.HasError (State_Set _)) eqn:Hset.
  { left. rewrite HasError_Append, Hset. by rewrite orb_true_r. }
  right. exists c, plan, diags. rewrite Hcall. cbn [fst snd].
  split_and!; [done| |done| |done].
  - destruct Hin as [->|Hin]; [left; by exists others|by right].
  - by destruct (decide (code = 0%Z)).
Qed.

(** The loop of [Create] is still polling after any number of pending
    snapshots. *)
Lemma awaitSettled_all_pending cs : ∀ c0 tr,
  Forall pending (c0 :: cs) →
  awaitSettled c0 (Ok <$> cs) tr = Polling (tr ++ polls (c0 :: cs)).
Proof.
  induction cs as [|c cs IH]; intros c0 tr [Hp0 Hp]%Forall_cons.
  - cbn [fmap list_fmap]. rewrite awaitSettled_blocked by done.
    by rewrite polls_cons, app_nil_r.
  - cbn [fmap list_fmap]. rewrite awaitSettled_next by done.
    rewrite IH by done. f_equal. rewrite (polls_cons c0). by rewrite <- app_assoc.
Qed.

(** Once the state is decoded and the delete request accepted, [Delete] is
    its loop. *)
Lemma Delete_submitted client request resp state diags :
  State_Get request = (state, diags) →
  diag.HasError (diag.Append (Diagnostics resp) diags) = false →
  (∃ u, DeleteMdsCluster_reply client = Ok u) →
  ∃ tr0, fetches tr0 = 0 ∧
    Delete client request resp =
    match awaitGone (types.ValueString (ID state)) (GetMdsCluster_replies client) tr0 with
    | Polling tr => Polling tr
    | Returned (Some err) tr =>
        Returned (AddError (AppendDiagnostics resp diags) "Fetching cluster"
                    ("Could not fetch cluster by id [" +:+ types.Sprint (ID state)
                     +:+ "], unexpected error: " +:+ errors.Error err)) tr
    | Returned None tr => Returned (AppendDiagnostics resp diags) tr
    end.
Proof.
  intros Hstate Herr [u Hdelete].
  unfold Delete. rewrite Hstate. cbn [AppendDiagnostics Diagnostics State].
  rewrite Herr, Hdelete.
  match goal with |- context [awaitGone _ _ ?T] => exists T end.
  split; [done|]. by destruct (awaitGone _ _ _) as [[err|] tr|tr].
Qed.

(** [Delete] only returns without an error diagnostic after its loop has
    broken. *)
Lemma Delete_returns client request resp resp' tr :
  Delete client request resp = Returned resp' tr →
  diag.HasError (Diagnostics resp') = false →
  ∃ id tr0, fetches tr0 = 0 ∧
    awaitGone id (GetMdsCluster_replies client) tr0 = Returned None tr.
Proof.
  unfold Delete. destruct (State_Get request) as [state diags].
  cbn [AppendDiagnostics Diagnostics State].
  destruct (diag.HasError (diag.Append _ _)) eqn:Herr;
    [intros [= <- _]; cbn [AppendDiagnostics Diagnostics]; by rewrite Herr|].
  destruct (DeleteMdsCluster_reply client) as [u|err].
  - destruct (awaitGone _ _ _) as [[err|] tr1|tr1] eqn:Hloop; [| |done].
    + intros [= <- _]. cbn [AddError Diagnostics]. by rewrite HasError_AddError.
    + intros [= <- <-] _. eexists _, _. split; [|exact Hloop]. done.
  - intros [= <- _]. cbn [AddError Diagnostics]. by rewrite HasError_AddError.
Qed.

End Lifecycle.

(** ** The claims on the polling loops *)

Section PollingClaims.
Context {fw : resource_cluster.Framework}.
Import resource_cluster.


Lemma classify_failed (s : string) : classify s = FailureTerminal → s = "FAILED".
Proof. unfold classify. by repeat case_decide. Qed.

Lemma Status_saved plan c o t :
  Status (store (set_Tags t) (store (set_Metadata o) (savedStrings plan c)))
  = types.StringValue (model.Status c).
Proof. by destruct plan. Qed.

Lemma ID_saved plan c o t :
  ID (store (set_Tags t) (store (set_Metadata o) (savedStrings plan c)))
  = types.StringValue (model.ID c).
Proof. by destruct plan. Qed.


(** C3.  When a confirmation fetch of [Delete] fails with a not-found error,
    after any number of successful fetches, [Delete] returns without adding
    a diagnostic, and the failed fetch is its last one, whatever replies the
    client still has. *)
Theorem Delete_succeeds_on_not_found client request resp state diags cs err rest :
  deleteSubmitted client request resp state diags →
  GetMdsCluster_replies client = (Ok <$> cs) ++ Err err :: rest →
  notFound err →
  ∃ tr,
    Delete client request resp = Returned (AppendDiagnostics resp diags) tr ∧
    fetches tr = length cs + 1 ∧
    diag.HasError (Diagnostics (AppendDiagnostics resp diags)) = false.
Proof.
  intros (Hstate & Herr & Hdelete) Hreplies Hnf.
  destruct (Delete_submitted client request resp state diags)
    as (tr0 & Hf0 & ->); [done..|].
  rewrite Hreplies.
  destruct (awaitGone_found (types.ValueString (ID state)) cs (Err err :: rest) tr0)
    as (tr1 & Hf1 & ->).
  rewrite awaitGone_notFound by done.
  eexists. split_and!; [done| |done].
  rewrite fetches_app, Hf1, Hf0. cbn. lia.
Qed.

(** C4.  A fetch that fails ends the operation at once, with an error
    diagnostic and no further fetch: the lookup by name of [Create], any
    later fetch of [Create], and any fetch of [Delete] whose error is not a
    not-found error.  The diagnostic marks the response as failed and the
    state is left as it was. *)
Theorem fetch_error_aborts :
  (∀ client req resp plan diags err,
     createSubmitted client req resp plan diags →
     GetMdsClusters_reply client = Err err →
     ∃ tr,
       Create client req resp =
       Returned (AddError (AppendDiagnostics resp diags) "Fetching clusters"
                   ("Could not fetch clusters by name, unexpected error: "
                    +:+ errors.Error err)) tr ∧
       fetches tr = 1) ∧
  (∀ client req resp plan diags pre err rest,
     createSubmitted client req resp plan diags →
     fetchSequence client pre (Err err :: rest) →
     Forall pending pre →
     ∃ tr,
       Create client req resp =
       Returned (AddError (AppendDiagnostics resp diags) "Fetching cluster"
                   ("Could not fetch cluster by ID, unexpected error: "
                    +:+ errors.Error err)) tr ∧
       fetches tr = length pre + 1) ∧
  (∀ client request resp state diags cs err rest,
     deleteSubmitted client request resp state diags →
     GetMdsCluster_replies client = (Ok <$> cs) ++ Err err :: rest →
     ¬ notFound err →
     ∃ tr,
       Delete client request resp =
       Returned (AddError (AppendDiagnostics resp diags) "Fetching cluster"
                   ("Could not fetch cluster by id [" +:+ types.Sprint (ID state)
                    +:+ "], unexpected error: " +:+ errors.Error err)) tr ∧
       fetches tr = length cs + 1) ∧
  (∀ resp summary detail,
     diag.HasError (Diagnostics (AddError resp summary detail)) = true ∧
     State (AddError resp summary detail) = State resp).
Proof.
  split_and!.
  - intros client req resp plan diags err (Hplan & Herr & [u Hcreate]) Hlookup.
    unfold Create. rewrite Hplan. cbn [AppendDiagnostics Diagnostics State].
    rewrite Herr, Hcreate, Hlookup. by eexists.
  - intros client req resp plan diags pre err rest (Hplan & Herr & Hcreate)
      (c0 & others & cs & Hlookup & Hreplies & ->) Hpre.
    destruct (exists_last (l := c0 :: cs)) as (pre' & cl & Hlast); [done|].
    assert (Hp : Forall pending pre' ∧ pending cl).
    { rewrite Hlast in Hpre. apply Forall_app in Hpre as [Hp' Hcl].
      split; [exact Hp'|]. by inversion Hcl. }
    destruct Hp as [Hpre' Hcl].
    destruct (Create_submitted client req resp plan diags c0 others)
      as (tr0 & Hf0 & ->); [done..| |].
    { apply (head_not_failed c0 cs pre' cl); [done|done|].
      intros _. by apply pending_statuses in Hcl as [_ ?]. }
    rewrite Hreplies, (awaitSettled_pending pre' c0 cs cl) by done.
    rewrite awaitSettled_error by done.
    eexists. split; [done|].
    rewrite !fetches_app, fetches_polls, Hf0, Hlast, length_app. cbn. lia.
  - intros client request resp state diags cs err rest (Hstate & Herr & Hdelete)
      Hreplies Hnf.
    destruct (Delete_submitted client request resp state diags)
      as (tr0 & Hf0 & ->); [done..|].
    rewrite Hreplies.
    destruct (awaitGone_found (types.ValueString (ID state)) cs (Err err :: rest) tr0)
      as (tr1 & Hf1 & ->).
    rewrite awaitGone_error by done.
    eexists. split; [done|].
    rewrite fetches_app, Hf1, Hf0. cbn. lia.
  - intros resp summary detail. cbn [AddError Diagnostics State].
    by rewrite HasError_AddError.
Qed.

(** C5.  [Create] never takes a pending snapshot for a success: when it
    returns with the state written, or with no error diagnostic, the state
    is mapped from a snapshot the client returned whose status is terminal.  [Delete] only returns
    without an error diagnostic once a fetch has reported the cluster
    absent.  And neither loop has a retry budget: after any number of
    pending snapshots (of successful fetches, for [Delete]) the operation
    has made one fetch more and is still polling. *)
Theorem no_pending_success :
  (∀ client req resp resp' tr,
     Create client req resp = Returned resp' tr →
     State resp' ≠ State resp ∨ diag.HasError (Diagnostics resp') = false →
     ∃ c st,
       fetched client c ∧ classify (model.Status c) ≠ Pending ∧
       State resp' = Some st ∧
       Status st = types.StringValue (model.Status c) ∧
       ID st = types.StringValue (model.ID c)) ∧
  (∀ client request resp resp' tr,
     Delete client request resp = Returned resp' tr →
     diag.HasError (Diagnostics resp') = false →
     ∃ cs err rest,
       GetMdsCluster_replies client = (Ok <$> cs) ++ Err err :: rest ∧
       notFound err ∧ fetches tr = length cs + 1) ∧
  (∀ client req resp plan diags cs,
     createSubmitted client req resp plan diags →
     fetchSequence client cs [] →
     Forall pending cs →
     ∃ tr, Create client req resp = Polling tr ∧ fetches tr = length cs + 1) ∧
  (∀ client request resp state diags cs,
     deleteSubmitted client request resp state diags →
     GetMdsCluster_replies client = Ok <$> cs →
     ∃ tr, Delete client request resp = Polling tr ∧ fetches tr = length cs + 1).
Proof.
  split_and!.
  - intros client req resp resp' tr Hrun Hstate.
    destruct (Create_returns client req resp resp' tr Hrun)
      as [[Hsame Herr]|(c & plan & diags & Hplan & Hfetched & Hterm & Hcode & Hset)].
    { destruct Hstate as [Hstate|Hstate]; [done|congruence]. }
    destruct (saveFromResponse_ok _ _ _ Hcode) as (_ & _ & Hst & _).
    eexists c, _. split_and!; [done|done|exact Hset|..].
    + by rewrite Hst, Status_saved.
    + by rewrite Hst, ID_saved.
  - intros client request resp resp' tr Hrun Herr.
    destruct (Delete_returns client request resp resp' tr Hrun Herr)
      as (id & tr0 & Hf0 & Hloop).
    apply awaitGone_breaks in Hloop as (cs & err & rest & Hreplies & Hnf & Hf).
    exists cs, err, rest. split_and!; [done|done|lia].
  - intros client req resp plan diags cs (Hplan & Herr & Hcreate)
      (c0 & others & cs' & Hlookup & Hreplies & ->) Hpre.
    destruct (Create_submitted client req resp plan diags c0 others)
      as (tr0 & Hf0 & ->); [done..| |].
    { apply Forall_cons in Hpre as [Hp _].
      by apply pending_statuses in Hp as [_ ?]. }
    rewrite Hreplies, app_nil_r, awaitSettled_all_pending by done.
    eexists. split; [done|].
    rewrite fetches_app, fetches_polls, Hf0. lia.
  - intros client request resp state diags cs (Hstate & Herr & Hdelete) Hreplies.
    destruct (Delete_submitted client request resp state diags)
      as (tr0 & Hf0 & ->); [done..|].
    rewrite Hreplies.
    destruct (awaitGone_found (types.ValueString (ID state)) cs [] tr0)
      as (tr1 & Hf1 & Hrun).
    rewrite app_nil_r in Hrun. rewrite Hrun, awaitGone_blocked.
    eexists. split; [done|].
    rewrite fetches_app, Hf1, Hf0. cbn. lia.
Qed.

End PollingClaims.

(** ** The service-roles data source *)

Section ServiceRoles.
Context {host : data_source_service_roles.Host}.
Variable RABBITMQ : string.
Import data_source_service_roles.





(** C8.  When the API answers with a response, [Read] panics exactly when
    the list [ServiceRoleDTO] of the response is empty: the element 0 is
    taken without a guard, no diagnostic is produced, and [Read] only returns
    on a response with at least one entry. *)
Theorem Read_panics_on_empty client req resp rolesResponse :
  GetMdsServiceRoles_reply client {| service_metadata.Type_ := RABBITMQ |}
  = Ok rolesResponse →
  (model.ServiceRoleDTO (model.Embedded rolesResponse) = [] →
   ∃ reason tr, Read RABBITMQ client req resp = (Panic reason, tr)) ∧
  (∀ resp' tr, Read RABBITMQ client req resp = (Done resp', tr) →
   model.ServiceRoleDTO (model.Embedded rolesResponse) ≠ []).
Proof.
  intros Hreply. unfold Read. destruct (Config_Get req) as [state diags].
  rewrite Hreply. split.
  - intros ->. by eexists _, _.
  - intros resp' tr.
    destruct (model.ServiceRoleDTO _) as [|dto dtos]; [done|]. done.
Qed.

(** C9.  [Read] ignores the attribute [type] of the configuration: whatever
    it holds, the only query sent is the one for the constant role type, and
    two configurations that differ only in [type] lead to the same panics or
    the same roles handed to [State.Set]. *)
Theorem Read_ignores_type client resp roles diags type1 type2 :
  let req type :=
    {| Config_Get := ({| Roles := roles; Type_ := type |}, diags) |} in
  queries (Read RABBITMQ client (req type1) resp).2
  = [{| service_metadata.Type_ := RABBITMQ |}] ∧
  queries (Read RABBITMQ client (req type2) resp).2
  = queries (Read RABBITMQ client (req type1) resp).2 ∧
  rolesSet (Read RABBITMQ client (req type2) resp).2
  = rolesSet (Read RABBITMQ client (req type1) resp).2 ∧
  panics (Read RABBITMQ client (req type2) resp).1
  = panics (Read RABBITMQ client (req type1) resp).1.
Proof.
  intros req. unfold Read, req. cbn [Config_Get].
  destruct (GetMdsServiceRoles_reply client _) as [rolesResponse|err]; [|done].
  destruct (model.ServiceRoleDTO _) as [|dto dtos]; [done|].
  by destruct (collectRoles _ _) as [permissionsVal stateRoles].
Qed.


End ServiceRoles.

(** ** The scenarios, on the reference framework *)

Section Scenarios.
Import resource_cluster.

Import reference.

Local Ltac evaluate := vm_compute; reflexivity.

Lemma reference_createSubmitted lookup replies :
  createSubmitted (reference.client lookup replies) reference.createRequest
    reference.emptyResponse reference.plan [].
Proof. split_and!; [reflexivity|reflexivity|by exists tt]. Defined.

Lemma reference_deleteSubmitted lookup replies :
  deleteSubmitted (reference.client lookup replies) reference.deleteRequest
    reference.emptyResponse reference.plan [].
Proof. split_and!; [reflexivity|reflexivity|by exists tt]. Defined.

(** [FAILED] at the first fetch: [Create] reports the failure, after one
    fetch, and writes no state. *)
Lemma Create_failed_at_first_fetch :
  ∃ tr,
    Create (fw := reference.framework) (reference.client (Ok [failed]) [])
      reference.createRequest reference.emptyResponse
    = Returned
        {| Diagnostics :=
             [diag.NewErrorDiagnostic "Error creating cluster"
                "Cluster creation failed with the status 'FAILED'"];
           State := None |} tr ∧
    fetches tr = 1.
Proof. eexists. split; evaluate. Qed.

(** C1, at the fetch sequence [pending, FAILED]: [Create] makes exactly two
    fetches, and then returns with no error diagnostic and with the state
    written from the failed snapshot, where the claim says it returns the
    failure. *)
Theorem Create_pending_then_failed :
  ∃ resp' tr,
    Create (fw := reference.framework)
      (reference.client (Ok [creating]) [Ok failed; Ok ready])
      reference.createRequest reference.emptyResponse
    = Returned resp' tr ∧
    fetches tr = 2 ∧
    diag.HasError (Diagnostics resp') = false ∧
    Status <$> State resp' = Some (types.StringValue "FAILED").
Proof. eexists _, _. split; [evaluate|]. split_and!; evaluate. Qed.

(** The same on every framework and every fetch sequence with a pending
    snapshot before the failed one: the failed snapshot is mapped and handed
    to [State.Set] like a ready one. *)
Lemma Create_maps_failed_after_pending {fw : Framework}
    client req resp plan diags p pre c rest :
  createSubmitted client req resp plan diags →
  fetchSequence client (p :: pre ++ [c]) rest →
  Forall pending (p :: pre) →
  classify (model.Status c) = FailureTerminal →
  (call_saveFromResponse (diag.Append (Diagnostics resp) diags) plan c).1 = 0%Z →
  ∃ resp' tr st,
    Create client req resp = Returned resp' (tr ++ [StateSet st]) ∧
    fetches tr = length pre + 2 ∧
    Status st = types.StringValue "FAILED" ∧
    (diag.HasError (State_Set st) = false →
     State resp' = Some st ∧ diag.HasError (Diagnostics resp') = false).
Proof.
  intros (Hplan & Herr & Hcreate) Hseq Hpre Hfailed%classify_failed Hcode.
  destruct (Create_settled client req resp plan diags (p :: pre) c rest)
    as (resp' & tr & Hrun & Hf & Hst & Hset); try done.
  - unfold pending, classify. rewrite Hfailed. by repeat case_decide.
  - eexists resp', tr, _. split_and!; [exact Hrun| | |done].
    + rewrite Hf. cbn [length]. lia.
    + by rewrite Hst, Status_saved, Hfailed.
Qed.


(** C3, when the first confirmation fetch reports the cluster absent: one
    fetch, no diagnostic, whatever the client would answer next. *)
Lemma Delete_succeeds_on_not_found_witness :
  ∃ tr,
    Delete (fw := reference.framework)
      (reference.client (Ok []) [Err (errors.ApiError 404 "not found"); Ok ready])
      reference.deleteRequest reference.emptyResponse
    = Returned reference.emptyResponse tr ∧
    fetches tr = 1.
Proof.
  destruct (Delete_succeeds_on_not_found (fw := reference.framework)
              (reference.client (Ok []) [Err (errors.ApiError 404 "not found"); Ok ready])
              reference.deleteRequest reference.emptyResponse reference.plan []
              [] (errors.ApiError 404 "not found") [Ok ready])
    as (tr & Hrun & Hf & _).
  - apply reference_deleteSubmitted.
  - reflexivity.
  - by exists "not found".
  - exists tr. split; [exact Hrun|exact Hf].
Defined.

(** C4, at a delete confirmation whose second fetch fails with a server
    error, and at a create polling whose second fetch fails with a not-found
    error: two fetches, then the error diagnostic. *)
Lemma fetch_error_aborts_witness :
  (∃ resp' tr,
     Delete (fw := reference.framework)
       (reference.client (Ok []) [Ok ready; Err (errors.ApiError 500 "down"); Ok ready])
       reference.deleteRequest reference.emptyResponse
     = Returned resp' tr ∧
     fetches tr = 2 ∧ diag.HasError (Diagnostics resp') = true) ∧
  (∃ resp' tr,
     Create (fw := reference.framework)
       (reference.client (Ok [creating]) [Err (errors.ApiError 404 "gone"); Ok ready])
       reference.createRequest reference.emptyResponse
     = Returned resp' tr ∧
     fetches tr = 2 ∧ diag.HasError (Diagnostics resp') = true ∧ State resp' = None).
Proof.
  destruct (fetch_error_aborts (fw := reference.framework))
    as (_ & Hcreate & Hdelete & Hdiag).
  split.
  - destruct (Hdelete
                (reference.client (Ok []) [Ok ready; Err (errors.ApiError 500 "down"); Ok ready])
                reference.deleteRequest reference.emptyResponse reference.plan []
                [ready] (errors.ApiError 500 "down") [Ok ready])
      as (tr & Hrun & Hf).
    + apply reference_deleteSubmitted.
    + reflexivity.
    + intros [msg Hmsg]. vm_compute in Hmsg. discriminate.
    + eexists _, tr. split_and!; [exact Hrun|exact Hf|apply Hdiag].
  - destruct (Hcreate
                (reference.client (Ok [creating]) [Err (errors.ApiError 404 "gone"); Ok ready])
                reference.createRequest reference.emptyResponse reference.plan []
                [creating] (errors.ApiError 404 "gone") [Ok ready])
      as (tr & Hrun & Hf).
    + apply reference_createSubmitted.
    + exists creating, [], []. split_and!; reflexivity.
    + repeat (constructor; [evaluate|]). constructor.
    + eexists _, tr. split_and!; [exact Hrun|exact Hf|apply Hdiag|].
      by rewrite (proj2 (Hdiag _ _ _)).
Defined.

(** C5, at three pending snapshots: [Create] has made four fetches and is
    still polling. *)
Lemma no_pending_success_witness :
  ∃ tr,
    Create (fw := reference.framework)
      (reference.client (Ok [creating]) [Ok creating; Ok creating])
      reference.createRequest reference.emptyResponse
    = Polling tr ∧
    fetches tr = 4.
Proof.
  destruct (no_pending_success (fw := reference.framework)) as (_ & _ & Hcreate & _).
  apply (Hcreate (reference.client (Ok [creating]) [Ok creating; Ok creating])
           reference.createRequest reference.emptyResponse reference.plan []
           [creating; creating; creating]).
  - apply reference_createSubmitted.
  - exists creating, [], [creating; creating]. split_and!; reflexivity.
  - repeat (constructor; [evaluate|]). constructor.
Defined.

(** C7 (amended), on the reference plan and a ready snapshot without metadata:
    the metadata object written holds the defaults. *)
Lemma saveFromResponse_assignments_witness :
  let r := call_saveFromResponse (fw := reference.framework) [] reference.plan ready in
  r.1 = 0%Z ∧
  assignments metadata r.2 = 1 ∧ assignments tags r.2 = 1 ∧
  assignments dedicated r.2 = 0 ∧
  types.Attributes (Metadata (f_state r.2))
  = {[ "manager_uri" := types.OfString (types.StringValue "");
       "connection_uri" := types.OfString (types.StringValue "");
       "metrics_endpoints" := types.OfList (types.ListNull types.StringType) ]}.
Proof.
  intros r.
  destruct (saveFromResponse_assignments (fw := reference.framework)
              [] reference.plan ready)
    as ((Hd & _) & _ & _ & Hok).
  assert (Hcode : r.1 = 0%Z) by evaluate.
  destruct (Hok Hcode) as (Hm & Ht & _ & Hnone & _).
  split_and!; [exact Hcode|exact Hm|exact Ht|exact Hd|].
  unfold r. rewrite (Hnone eq_refl). evaluate.
Defined.

End Scenarios.

Section RolesScenarios.
Import data_source_service_roles.

(** C8, on a response with an empty list of entries. *)
Lemma Read_panics_on_empty_witness :
  ∃ reason tr,
    Read (host := reference.host) "RABBITMQ"
      (reference.rolesClient (Ok (reference.rolesResponse [])))
      (reference.rolesRequest "RABBITMQ") reference.emptyRolesResponse
    = (Panic reason, tr).
Proof.
  apply (Read_panics_on_empty (host := reference.host) "RABBITMQ"
           (reference.rolesClient (Ok (reference.rolesResponse [])))
           (reference.rolesRequest "RABBITMQ") reference.emptyRolesResponse
           (reference.rolesResponse []) eq_refl).
  reflexivity.
Defined.


End RolesScenarios.

(** ** More on the cluster mapper *)

Section MapperCode.
Context {fw : resource_cluster.Framework}.
Import resource_cluster.

Lemma Append_prefix (new : list diag.Diagnostic) : ∀ diags,
  diags `prefix_of` diag.Append diags new.
Proof.
  induction new as [|d new IH]; intros diags; cbn [diag.Append]; [done|].
  destruct (diag.Contains diags d); [apply IH|].
  etrans; [|apply IH]. by apply prefix_app_r.
Qed.

Lemma HasError_Append_false_iff (d1 d2 : list diag.Diagnostic) :
  diag.HasError (diag.Append d1 d2) = false ↔
  diag.HasError d1 = false ∧ diag.HasError d2 = false.
Proof. rewrite HasError_Append. apply orb_false_iff. Qed.

(** The mapper returns 0 exactly when neither the diagnostics it is given
    nor those of its three conversions carry an error. *)
Lemma saveFromResponse_zero_iff d s c :
  (call_saveFromResponse d s c).1 = 0%Z ↔
  diag.HasError d = false ∧
  (∀ md, model.Metadata c = Some md →
     diag.HasError
       (types.ListValueFrom types.StringType (model.MetricsEndpoints md)).2 = false) ∧
  diag.HasError
    (ObjectValueFrom (types.AttributeTypes (Metadata s)) (metadataModelOf c)).2 = false ∧
  diag.HasError (types.SetValueFrom types.StringType (model.Tags c)).2 = false.
Proof.
  destruct s.
  cbv [call_saveFromResponse saveFromResponse mbind Stmt_bind mret Stmt_ret
       assign check read_state return_ store target f_state f_diagnostics
       f_assigned app Metadata metadataModelOf].
  destruct (model.Metadata c) as [md|] eqn:Em.
  - destruct (types.ListValueFrom _ _) as [l d1] eqn:El; cbn [fst snd].
    destruct (diag.HasError (diag.Append d d1)) eqn:E1; cbn [fst snd].
    { split; [done|]. intros (H0 & H1 & _). specialize (H1 md eq_refl).
      rewrite El in H1. cbn [snd] in H1.
      assert (diag.HasError (diag.Append d d1) = false)
        by by apply HasError_Append_false_iff.
      congruence. }
    apply HasError_Append_false_iff in E1 as [E0 E1].
    destruct (ObjectValueFrom _ _) as [o d2] eqn:Eo.
    rewrite HasError_Append, HasError_Append, E0, E1. cbn [orb fst snd].
    destruct (diag.HasError d2) eqn:E2; cbn [fst snd].
    { split; [done|]. by intros (_ & _ & ? & _). }
    destruct (types.SetValueFrom _ _) as [t d3] eqn:Et.
    rewrite !HasError_Append, E0, E1, E2. cbn [orb fst snd].
    destruct (diag.HasError d3) eqn:E3; cbn [fst snd].
    { split; [done|]. by intros (_ & _ & _ & ?). }
    split; [|done]. intros _. split_and!; try done.
    intros md' [= <-]. by rewrite El.
  - destruct (ObjectValueFrom _ _) as [o d2] eqn:Eo.
    rewrite HasError_Append.
    destruct (diag.HasError d) eqn:E0; cbn [orb fst snd].
    { split; [done|]. by intros (? & _). }
    destruct (diag.HasError d2) eqn:E2; cbn [fst snd].
    { split; [done|]. by intros (_ & _ & ? & _). }
    destruct (types.SetValueFrom _ _) as [t d3] eqn:Et.
    rewrite !HasError_Append, E0, E2. cbn [orb fst snd].
    destruct (diag.HasError d3) eqn:E3; cbn [fst snd].
    { split; [done|]. by intros (_ & _ & _ & ?). }
    split; [|done]. intros _. split_and!; done.
Qed.

(** X1.  A call of [saveFromResponse] drops no diagnostic, returns 0 or 1,
    and returns 0 exactly when the diagnostics hold no error afterwards,
    that is exactly when neither the diagnostics it was given nor those of
    its three conversions carry one: a caller that returns on a non-zero
    code always leaves an error diagnostic behind. *)
Theorem saveFromResponse_diagnostics d s c :
  let r := call_saveFromResponse d s c in
  d `prefix_of` f_diagnostics r.2 ∧
  (r.1 = 0%Z ∨ r.1 = 1%Z) ∧
  (r.1 = 0%Z ↔ diag.HasError (f_diagnostics r.2) = false) ∧
  (r.1 = 0%Z ↔
   diag.HasError d = false ∧
   (∀ md, model.Metadata c = Some md →
      diag.HasError
        (types.ListValueFrom types.StringType (model.MetricsEndpoints md)).2 = false) ∧
   diag.HasError
     (ObjectValueFrom (types.AttributeTypes (Metadata s)) (metadataModelOf c)).2 = false ∧
   diag.HasError (types.SetValueFrom types.StringType (model.Tags c)).2 = false).
Proof.
  intros r.
  pose proof (saveFromResponse_saved d s c) as H. fold r in H.
  assert (Hp : d `prefix_of` f_diagnostics r.2).
  { subst r. destruct s.
    cbv [call_saveFromResponse saveFromResponse mbind Stmt_bind mret Stmt_ret
         assign check read_state return_ store target f_state f_diagnostics
         f_assigned app Metadata].
    destruct (model.Metadata c) as [md|].
    - destruct (types.ListValueFrom _ _) as [l d1]; cbn [fst snd].
      destruct (diag.HasError (diag.Append d d1)); cbn [fst snd f_diagnostics];
        [apply Append_prefix|].
      destruct (ObjectValueFrom _ _) as [o d2].
      destruct (diag.HasError (diag.Append _ d2)); cbn [fst snd f_diagnostics];
        [etrans; apply Append_prefix|].
      destruct (types.SetValueFrom _ _) as [t d3].
      destruct (diag.HasError (diag.Append _ d3)); cbn [fst snd f_diagnostics];
        (etrans; [|apply Append_prefix]); (etrans; apply Append_prefix).
    - destruct (ObjectValueFrom _ _) as [o d2].
      destruct (diag.HasError (diag.Append _ d2)); cbn [fst snd f_diagnostics];
        [apply Append_prefix|].
      destruct (types.SetValueFrom _ _) as [t d3].
      destruct (diag.HasError (diag.Append _ d3)); cbn [fst snd f_diagnostics];
        (etrans; apply Append_prefix). }
  split; [done|]. split; [|split; [|exact (saveFromResponse_zero_iff d s c)]].
  - destruct r as [code fr]. cbn [fst snd] in *.
    destruct H; [by right|by right|by left].
  - destruct r as [code fr]. cbn [fst snd] in *.
    destruct H as [fr E _ _|fr _ E _ _|fr _ E _ _]; by rewrite E.
Qed.


Lemma Metadata_saved s c o t :
  Metadata (store (set_Tags t) (store (set_Metadata o) (savedStrings s c))) = o.
Proof. by destruct s. Qed.

(** After a call that returned 0, a second call on the state it left, on
    diagnostics without error, returns 0 again and leaves the same state. *)
Lemma saveFromResponse_ok_again (Hk : keeps_types) d s c d' :
  (call_saveFromResponse d s c).1 = 0%Z →
  diag.HasError d' = false →
  (call_saveFromResponse d' (f_state (call_saveFromResponse d s c).2) c).1 = 0%Z ∧
  f_state (call_saveFromResponse d' (f_state (call_saveFromResponse d s c).2) c).2
  = f_state (call_saveFromResponse d s c).2.
Proof.
  intros Hcode Hd'. split; [|apply (saveFromResponse_again Hk); by left].
  destruct (saveFromResponse_ok d s c Hcode) as (_ & _ & Hst & _).
  apply saveFromResponse_zero_iff in Hcode as (_ & H1 & H2 & H3).
  apply saveFromResponse_zero_iff. split_and!; [done|done| |done].
  rewrite Hst, Metadata_saved. unfold metadataObjectOf. by rewrite Hk.
Qed.

End MapperCode.

(** ** The traces of Create and Delete *)

Section Traces.
Context {fw : resource_cluster.Framework}.
Import resource_cluster.

Lemma slept_app (tr1 tr2 : list event) :
  clusterResource.slept (tr1 ++ tr2) = clusterResource.slept tr1 + clusterResource.slept tr2.
Proof. apply sum_list_with_app. Qed.

Lemma slept_polls (cs : list model.MdsCluster) :
  clusterResource.slept (polls cs) = 10 * length cs.
Proof.
  induction cs as [|c cs IH]; [done|].
  rewrite polls_cons, slept_app, IH. cbn [length]. unfold clusterResource.slept at 1.
  cbn. lia.
Qed.

Lemma polls_app (cs1 cs2 : list model.MdsCluster) :
  polls (cs1 ++ cs2) = polls cs1 ++ polls cs2.
Proof. unfold polls. by rewrite bind_app. Qed.

(** The loop of [Create] only adds polls to the trace. *)
Lemma awaitSettled_trace replies : ∀ c tr,
  ∃ cs, clusterResource.trace_of (awaitSettled c replies tr) = tr ++ polls cs ∧
        length cs ≤ S (length replies).
Proof.
  induction replies as [|[fetched|err] replies IH]; intros c tr;
    destruct (decide (pending c)) as [Hp|Hp];
    try (rewrite awaitSettled_terminal by done; exists [];
         split; [by rewrite app_nil_r|cbn; lia]).
  - rewrite awaitSettled_blocked by done. exists [c]. split; [done|cbn; lia].
  - rewrite awaitSettled_next by done.
    destruct (IH fetched (tr ++ [Sleep 10; GetMdsCluster (model.ID c)])) as (cs & -> & Hlen).
    exists (c :: cs). split; [by rewrite polls_cons, <- app_assoc|cbn; lia].
  - rewrite awaitSettled_error by done. exists [c]. split; [done|cbn; lia].
Qed.

Lemma awaitGone_trace id replies : ∀ tr,
  ∃ k, clusterResource.trace_of (awaitGone id replies tr)
       = tr ++ mjoin (replicate k [Sleep 10; GetMdsCluster id]) ∧
       1 ≤ k ≤ S (length replies).
Proof.
  induction replies as [|[c|err] replies IH]; intros tr.
  - exists 1. split; [done|cbn; lia].
  - rewrite awaitGone_next.
    destruct (IH (tr ++ [Sleep 10; GetMdsCluster id])) as (k & -> & Hk).
    exists (S k). split; [by rewrite <- app_assoc|cbn; lia].
  - exists 1. split; [|cbn; lia].
    destruct (notFound_dec err).
    + by rewrite awaitGone_notFound.
    + by rewrite awaitGone_error.
Qed.

(** X2.  Every run of [Create], returned or still polling, has the same
    shape: at most one create request, then at most one lookup by the name
    and the service type of that request, then polls (a sleep of ten seconds
    followed by a fetch by identifier, at most one more than the client has
    replies), then at most one call of [State.Set], which comes last.  The
    time slept is ten seconds per poll. *)
Theorem Create_trace client req resp :
  ∃ r head cs tail,
    clusterResource.trace_of (Create client req resp) = head ++ polls cs ++ tail ∧
    head `prefix_of` [CreateMdsCluster r; GetMdsClusters (clusterResource.lookupOf r)] ∧
    (tail = [] ∨ ∃ st, tail = [StateSet st]) ∧
    (cs ≠ [] ∨ tail ≠ [] → length head = 2) ∧
    length cs ≤ S (length (GetMdsCluster_replies client)) ∧
    clusterResource.slept (clusterResource.trace_of (Create client req resp))
    = 10 * length cs.
Proof.
  assert (Hshape : ∃ r head cs tail,
    clusterResource.trace_of (Create client req resp) = head ++ polls cs ++ tail ∧
    head `prefix_of` [CreateMdsCluster r; GetMdsClusters (clusterResource.lookupOf r)] ∧
    (tail = [] ∨ ∃ st, tail = [StateSet st]) ∧
    (cs ≠ [] ∨ tail ≠ [] → length head = 2) ∧
    length cs ≤ S (length (GetMdsCluster_replies client)) ∧
    clusterResource.slept head = 0 ∧ clusterResource.slept tail = 0).
  { unfold Create. destruct (Plan_Get req) as [plan diags].
    cbn [AppendDiagnostics Diagnostics State].
    match goal with |- context [CreateMdsCluster ?R] => set (r := R) end.
    fold (clusterResource.lookupOf r).
    set (head2 := [CreateMdsCluster r] ++ [GetMdsClusters (clusterResource.lookupOf r)]).
    destruct (diag.HasError (diag.Append _ _)).
    { exists r, [], [], []. split_and!; [done|apply prefix_nil|by left| |cbn; lia|done|done].
      by intros [|]. }
    destruct (CreateMdsCluster_reply client) as [u|err].
    2:{ exists r, [CreateMdsCluster r], [], [].
        split_and!; [done|by apply prefix_cons, prefix_nil|by left| |cbn; lia|done|done].
        by intros [|]. }
    assert (Hfull : ∀ cs tail,
      (tail = [] ∨ ∃ st, tail = [StateSet st]) →
      length cs ≤ S (length (GetMdsCluster_replies client)) →
      ∃ r0 head cs0 tail0,
        (head2 ++ polls cs) ++ tail = head ++ polls cs0 ++ tail0 ∧
        head `prefix_of`
          [CreateMdsCluster r0; GetMdsClusters (clusterResource.lookupOf r0)] ∧
        (tail0 = [] ∨ ∃ st, tail0 = [StateSet st]) ∧
        (cs0 ≠ [] ∨ tail0 ≠ [] → length head = 2) ∧
        length cs0 ≤ S (length (GetMdsCluster_replies client)) ∧
        clusterResource.slept head = 0 ∧ clusterResource.slept tail0 = 0).
    { intros cs tail Htail Hlen. exists r, head2, cs, tail.
      split_and!; [by rewrite <- app_assoc|done|done|done|done|done|].
      by destruct Htail as [->|[st ->]]. }
    assert (Hnone : ∀ a : Response, ∃ r0 head cs0 tail0,
        clusterResource.trace_of (Returned a head2) = head ++ polls cs0 ++ tail0 ∧
        head `prefix_of`
          [CreateMdsCluster r0; GetMdsClusters (clusterResource.lookupOf r0)] ∧
        (tail0 = [] ∨ ∃ st, tail0 = [StateSet st]) ∧
        (cs0 ≠ [] ∨ tail0 ≠ [] → length head = 2) ∧
        length cs0 ≤ S (length (GetMdsCluster_replies client)) ∧
        clusterResource.slept head = 0 ∧ clusterResource.slept tail0 = 0).
    { intros a. destruct (Hfull [] []) as (r0 & head & cs0 & tail0 & Heq & H);
        [by left|cbn; lia|].
      exists r0, head, cs0, tail0. split; [|done].
      by rewrite <- Heq, !app_nil_r. }
    destruct (GetMdsClusters_reply client) as [[|c0 others]|err];
      [apply Hnone| |apply Hnone].
    case_decide; [apply Hnone|].
    destruct (awaitSettled_trace (GetMdsCluster_replies client) c0 head2)
      as (cs & Htr & Hlen).
    destruct (awaitSettled _ _ _) as [[c|err] tr|tr]; cbn [clusterResource.trace_of] in Htr;
      subst tr.
    - destruct (call_saveFromResponse _ _ _) as [code fr].
      case_decide; cbn [clusterResource.trace_of].
      + rewrite <- (app_nil_r (head2 ++ polls cs)). apply Hfull; [by left|done].
      + apply Hfull; [right; by eexists|done].
    - cbn [clusterResource.trace_of].
      rewrite <- (app_nil_r (head2 ++ polls cs)). apply Hfull; [by left|done].
    - cbn [clusterResource.trace_of].
      rewrite <- (app_nil_r (head2 ++ polls cs)). apply Hfull; [by left|done]. }
  destruct Hshape as (r & head & cs & tail & Htr & Hhead & Htail & Hlen & Hcs & Hs1 & Hs2).
  exists r, head, cs, tail. split_and!; try done.
  rewrite Htr, !slept_app, slept_polls, Hs1, Hs2. lia.
Qed.

End Traces.

(** ** Read, and more on Create and Delete *)

Section ReadResource.
Context {fw : resource_cluster.Framework}.
Import resource_cluster.

(** [Read] on a cluster fetched and mapped without error. *)
Lemma Read_maps client req resp state diags c rest :
  clusterResource.State_Get req = (state, diags) →
  diag.HasError (diag.Append (Diagnostics resp) diags) = false →
  GetMdsCluster_replies client = Ok c :: rest →
  (call_saveFromResponse (diag.Append (Diagnostics resp) diags) state c).1 = 0%Z →
  ∃ resp' st,
    clusterResource.Read client req resp
    = Returned resp' [GetMdsCluster (types.ValueString (ID state)); StateSet st] ∧
    st = store (set_Tags (tagsOf c))
           (store (set_Metadata (metadataObjectOf state c)) (savedStrings state c)) ∧
    (diag.HasError (State_Set st) = false →
     State resp' = Some st ∧ diag.HasError (Diagnostics resp') = false).
Proof.
  intros Hstate Herr Hreplies Hcode.
  unfold clusterResource.Read. rewrite Hstate.
  cbn [AppendDiagnostics Diagnostics State]. rewrite Herr, Hreplies.
  destruct (saveFromResponse_ok _ _ _ Hcode) as (_ & He & Hst & _).
  destruct (call_saveFromResponse _ _ _) as [code fr]. cbn [fst snd] in *.
  case_decide; [done|]. eexists _, _. split_and!; [done|done|].
  intros Hset. cbn [State Diagnostics]. rewrite Hset. split; [done|].
  by rewrite HasError_Append, He, Hset.
Qed.

(** X5.  [Read] makes exactly one fetch, by the identifier of the state, and
    never sleeps; a failed fetch is reported and leaves the state as it was;
    a cluster fetched and mapped without error is handed to [State.Set]; a
    cluster the mapper fails on is not. *)
Theorem Read_outcome client req resp state diags :
  clusterResource.State_Get req = (state, diags) →
  diag.HasError (diag.Append (Diagnostics resp) diags) = false →
  let id := types.ValueString (ID state) in
  let tr := clusterResource.trace_of (clusterResource.Read client req resp) in
  (fetches tr = 1 ∧ clusterResource.slept tr = 0 ∧
   clusterResource.polled tr = [id]) ∧
  (∀ err rest, GetMdsCluster_replies client = Err err :: rest →
     clusterResource.Read client req resp =
     Returned (AddError (AppendDiagnostics resp diags) "Reading MDS Cluster"
                 ("Could not read MDS cluster ID " +:+ id +:+ ": " +:+ errors.Error err))
       [GetMdsCluster id]) ∧
  (∀ c rest, GetMdsCluster_replies client = Ok c :: rest →
     (call_saveFromResponse (diag.Append (Diagnostics resp) diags) state c).1 = 0%Z →
     ∃ resp' st,
       clusterResource.Read client req resp
       = Returned resp' [GetMdsCluster id; StateSet st] ∧
       st = store (set_Tags (tagsOf c))
              (store (set_Metadata (metadataObjectOf state c)) (savedStrings state c)) ∧
       (diag.HasError (State_Set st) = false →
        State resp' = Some st ∧ diag.HasError (Diagnostics resp') = false)) ∧
  (∀ c rest, GetMdsCluster_replies client = Ok c :: rest →
     (call_saveFromResponse (diag.Append (Diagnostics resp) diags) state c).1 ≠ 0%Z →
     ∃ resp',
       clusterResource.Read client req resp = Returned resp' [GetMdsCluster id] ∧
       State resp' = State resp ∧ diag.HasError (Diagnostics resp') = true).
Proof.
  intros Hstate Herr id tr. subst tr.
  assert (Hmaps := Read_maps client req resp state diags).
  unfold clusterResource.Read in *. rewrite Hstate in *.
  cbn [AppendDiagnostics Diagnostics State] in *. rewrite Herr in *. fold id in Hmaps |- *.
  split; [|split; [|split]].
  - destruct (GetMdsCluster_replies client) as [|[c|err] rest]; [done| |done].
    destruct (call_saveFromResponse _ _ _) as [code fr]. by case_decide.
  - by intros err rest ->.
  - intros c rest Hreplies Hcode. by apply (Hmaps c rest).
  - intros c rest -> Hcode.
    pose proof (saveFromResponse_failed _ _ _ Hcode) as He.
    destruct (call_saveFromResponse _ _ _) as [code fr]. cbn [fst snd] in *.
    case_decide; [|done]. by eexists.
Qed.

(** A refresh of an unchanged cluster changes nothing: when the state is the
    one a call of the mapper that returned 0 left for the snapshot [c], and
    the remote still answers [c], [Read] hands that very state to [State.Set]. *)
Lemma Read_after_mapping_is_stable (Hk : keeps_types) client req resp d0 s0 c diags rest :
  (call_saveFromResponse d0 s0 c).1 = 0%Z →
  let st := f_state (call_saveFromResponse d0 s0 c).2 in
  clusterResource.State_Get req = (st, diags) →
  diag.HasError (diag.Append (Diagnostics resp) diags) = false →
  GetMdsCluster_replies client = Ok c :: rest →
  ∃ resp',
    clusterResource.Read client req resp
    = Returned resp' [GetMdsCluster (model.ID c); StateSet st] ∧
    (diag.HasError (State_Set st) = false →
     State resp' = Some st ∧ diag.HasError (Diagnostics resp') = false).
Proof.
  intros Hcode st Hstate Herr Hreplies.
  destruct (saveFromResponse_ok_again Hk d0 s0 c
              (diag.Append (Diagnostics resp) diags) Hcode Herr) as [Hcode2 Hst2].
  fold st in Hcode2, Hst2.
  destruct (Read_maps client req resp st diags c rest Hstate Herr Hreplies Hcode2)
    as (resp' & st' & Hrun & Hst' & Hset).
  assert (Hid : types.ValueString (ID st) = model.ID c).
  { unfold st. destruct (saveFromResponse_ok _ _ _ Hcode) as (_ & _ & -> & _).
    by rewrite ID_saved. }
  assert (st' = st) as ->.
  { rewrite Hst'.
    destruct (saveFromResponse_ok _ _ _ Hcode2) as (_ & _ & Heq & _).
    by rewrite <- Heq. }
  exists resp'. rewrite <- Hid. done.
Qed.


(** X6.  A refresh right after a create changes nothing: when [Create] has
    written a state, it was mapped from a snapshot the client returned, and
    a [Read] of that state, while the remote still answers that snapshot,
    makes one fetch and hands the very same state to [State.Set]. *)
Theorem Read_after_Create_is_stable (Hk : keeps_types) client req resp resp1 tr :
  Create client req resp = Returned resp1 tr →
  State resp1 ≠ State resp →
  ∃ c st,
    fetched client c ∧ State resp1 = Some st ∧
    ∀ client' req' resp' diags rest,
      clusterResource.State_Get req' = (st, diags) →
      diag.HasError (diag.Append (Diagnostics resp') diags) = false →
      GetMdsCluster_replies client' = Ok c :: rest →
      ∃ resp2,
        clusterResource.Read client' req' resp'
        = Returned resp2 [GetMdsCluster (model.ID c); StateSet st] ∧
        (diag.HasError (State_Set st) = false →
         State resp2 = Some st ∧ diag.HasError (Diagnostics resp2) = false).
Proof.
  intros Hrun Hstate.
  destruct (Create_returns client req resp resp1 tr Hrun)
    as [[Hsame _]|(c & plan & diags & Hplan & Hfetched & _ & Hcode & Hset)]; [done|].
  eexists c, _. split_and!; [done|exact Hset|].
  intros client' req' resp' diags' rest Hget Herr Hreplies.
  by apply (Read_after_mapping_is_stable Hk client' req' resp' _ plan c diags' rest).
Qed.

(** X4.  Every run of [Delete] has the same shape: at most one delete
    request, then polls by the identifier of the state (a sleep of ten
    seconds, then a fetch), at most one more than the client has replies;
    [State.Set] is never called and the state of the response is never
    changed; a delete request the client rejects is reported at once,
    without any poll. *)
Theorem Delete_trace client request resp state diags :
  State_Get request = (state, diags) →
  let id := types.ValueString (ID state) in
  let r := Delete client request resp in
  (∃ head k,
     clusterResource.trace_of r
     = head ++ mjoin (replicate k [Sleep 10; GetMdsCluster id]) ∧
     head `prefix_of` [DeleteMdsCluster id] ∧
     (k ≠ 0 → head = [DeleteMdsCluster id]) ∧
     k ≤ S (length (GetMdsCluster_replies client)) ∧
     fetches (clusterResource.trace_of r) = k ∧
     clusterResource.slept (clusterResource.trace_of r) = 10 * k ∧
     clusterResource.statesSet (clusterResource.trace_of r) = []) ∧
  (∀ resp' tr, r = Returned resp' tr → State resp' = State resp) ∧
  (∀ err, diag.HasError (diag.Append (Diagnostics resp) diags) = false →
     DeleteMdsCluster_reply client = Err err →
     r = Returned
           (AddError (AppendDiagnostics resp diags) "Deleting MDS Cluster"
              ("Could not delete MDS cluster by ID " +:+ id +:+ ": " +:+ errors.Error err))
           [DeleteMdsCluster id]).
Proof.
  intros Hstate id r. subst r. unfold Delete. rewrite Hstate.
  cbn [AppendDiagnostics Diagnostics State]. fold id.
  assert (Hloop : ∀ k,
    fetches ([DeleteMdsCluster id] ++ mjoin (replicate k [Sleep 10; GetMdsCluster id])) = k ∧
    clusterResource.slept
      ([DeleteMdsCluster id] ++ mjoin (replicate k [Sleep 10; GetMdsCluster id])) = 10 * k ∧
    clusterResource.statesSet
      ([DeleteMdsCluster id] ++ mjoin (replicate k [Sleep 10; GetMdsCluster id])) = []).
  { intros k. rewrite fetches_app, slept_app. unfold clusterResource.statesSet.
    rewrite omap_app.
    induction k as [|k (IH1 & IH2 & IH3)]; [done|].
    change (mjoin (replicate (S k) [Sleep 10; GetMdsCluster id]))
      with ([Sleep 10; GetMdsCluster id] ++ mjoin (replicate k [Sleep 10; GetMdsCluster id])).
    rewrite fetches_app, slept_app, omap_app.
    change (fetches [DeleteMdsCluster id]) with 0 in *.
    change (fetches [Sleep 10; GetMdsCluster id]) with 1.
    change (clusterResource.slept [DeleteMdsCluster id]) with 0 in *.
    change (clusterResource.slept [Sleep 10; GetMdsCluster id]) with 10.
    split_and!; [lia|lia|]. exact IH3. }
  split; [|split].
  - destruct (diag.HasError _).
    { exists [], 0. split_and!; try done; try apply prefix_nil; try (cbn; lia). }
    destruct (DeleteMdsCluster_reply client) as [u|err].
    2:{ exists [DeleteMdsCluster id], 0. split_and!; try done; try (cbn; lia). }
    destruct (awaitGone_trace id (GetMdsCluster_replies client) [DeleteMdsCluster id])
      as (k & Htr & Hk).
    assert (Heq : clusterResource.trace_of
              match awaitGone id (GetMdsCluster_replies client) [DeleteMdsCluster id] with
              | Returned (Some err) tr =>
                  Returned
                    (AddError (AppendDiagnostics resp diags) "Fetching cluster"
                       ("Could not fetch cluster by id [" +:+ types.Sprint (ID state)
                        +:+ "], unexpected error: " +:+ errors.Error err)) tr
              | Returned None tr => Returned (AppendDiagnostics resp diags) tr
              | Polling tr => Polling tr
              end
            = [DeleteMdsCluster id] ++ mjoin (replicate k [Sleep 10; GetMdsCluster id])).
    { rewrite <- Htr. by destruct (awaitGone _ _ _) as [[err|] tr|tr]. }
    rewrite Heq. destruct (Hloop k) as (H1 & H2 & H3).
    exists [DeleteMdsCluster id], k. split_and!; try done; try lia.
  - intros resp' tr. destruct (diag.HasError _); [by intros [= <- _]|].
    destruct (DeleteMdsCluster_reply client) as [u|err]; [|by intros [= <- _]].
    destruct (awaitGone _ _ _) as [[err|] tr1|tr1]; [by intros [= <- _]..|done].
  - intros err -> ->. done.
Qed.

(** X3.  [Create] stops at the first failure, before the next call: a plan
    that does not decode sends nothing; a create request the client rejects
    is followed by no lookup; a lookup that finds no cluster, or finds it
    [FAILED], is followed by no poll.  Each is reported by a diagnostic of
    its own. *)
Theorem Create_fails_fast client req resp plan diags :
  Plan_Get req = (plan, diags) →
  (diag.HasError (diag.Append (Diagnostics resp) diags) = true →
   Create client req resp = Returned (AppendDiagnostics resp diags) []) ∧
  (diag.HasError (diag.Append (Diagnostics resp) diags) = false →
   (∀ err, CreateMdsCluster_reply client = Err err →
      ∃ r, Create client req resp =
           Returned
             (AddError (AppendDiagnostics resp diags)
                "Submitting request to create cluster"
                ("Could not create cluster, unexpected error: " +:+ errors.Error err))
             [CreateMdsCluster r]) ∧
   (∀ u, CreateMdsCluster_reply client = Ok u →
      GetMdsClusters_reply client = Ok [] →
      ∃ r, Create client req resp =
           Returned
             (AddError (AppendDiagnostics resp diags) "Fetching Clusters"
                "Unable to fetch the created cluster")
             [CreateMdsCluster r; GetMdsClusters (clusterResource.lookupOf r)]) ∧
   (∀ u c others, CreateMdsCluster_reply client = Ok u →
      GetMdsClusters_reply client = Ok (c :: others) →
      model.Status c = "FAILED" →
      ∃ r, Create client req resp =
           Returned
             (AddError (AppendDiagnostics resp diags) "Error creating cluster"
                "Cluster creation failed with the status 'FAILED'")
             [CreateMdsCluster r; GetMdsClusters (clusterResource.lookupOf r)])).
Proof.
  intros Hplan. unfold Create. rewrite Hplan.
  cbn [AppendDiagnostics Diagnostics State].
  split; [by intros ->|]. intros ->. split_and!.
  - intros err ->. by eexists.
  - intros u -> ->. by eexists.
  - intros u c others -> -> Hf. case_decide; [|done]. by eexists.
Qed.

End ReadResource.

(** ** Update, Metadata and Configure *)

Section UpdateResource.
Context {fw : resource_cluster.Framework}.
Import resource_cluster.

(** Two calls of the mapper on states that agree on the attributes it does
    not assign and on the attribute types of the metadata end alike. *)
Lemma saveFromResponse_agree d s1 s2 c :
  NetworkPolicyIds s1 = NetworkPolicyIds s2 →
  Dedicated s1 = Dedicated s2 →
  Shared s1 = Shared s2 →
  types.AttributeTypes (Metadata s1) = types.AttributeTypes (Metadata s2) →
  (call_saveFromResponse d s1 c).1 = (call_saveFromResponse d s2 c).1 ∧
  f_diagnostics (call_saveFromResponse d s1 c).2
  = f_diagnostics (call_saveFromResponse d s2 c).2 ∧
  ((call_saveFromResponse d s1 c).1 = 0%Z →
   f_state (call_saveFromResponse d s1 c).2 = f_state (call_saveFromResponse d s2 c).2).
Proof.
  destruct s1, s2. cbn [NetworkPolicyIds Dedicated Shared Metadata].
  intros -> -> -> Htys.
  cbv [call_saveFromResponse saveFromResponse mbind Stmt_bind mret Stmt_ret
       assign check read_state return_ store target f_state f_diagnostics
       f_assigned app Metadata].
  destruct (model.Metadata c) as [md|].
  - destruct (types.ListValueFrom _ _) as [l d1]; cbn [fst snd].
    destruct (diag.HasError (diag.Append d d1)); cbn [fst snd]; [done|].
    rewrite Htys.
    destruct (ObjectValueFrom _ _) as [o d2].
    destruct (diag.HasError (diag.Append _ d2)); cbn [fst snd]; [done|].
    destruct (types.SetValueFrom _ _) as [t d3].
    by destruct (diag.HasError (diag.Append _ d3)).
  - rewrite Htys.
    destruct (ObjectValueFrom _ _) as [o d2].
    destruct (diag.HasError (diag.Append _ d2)); cbn [fst snd]; [done|].
    destruct (types.SetValueFrom _ _) as [t d3].
    by destruct (diag.HasError (diag.Append _ d3)).
Qed.

(** X7.  [Update] only looks at the identifier, the tags, [network_policy_ids],
    [dedicated], [shared] and the attribute types of the metadata of the plan:
    a change of any other attribute of the plan changes neither the request
    sent nor the response. *)
Theorem Update_reads_id_and_tags client resp plan1 plan2 diags :
  ID plan1 = ID plan2 →
  Tags plan1 = Tags plan2 →
  NetworkPolicyIds plan1 = NetworkPolicyIds plan2 →
  Dedicated plan1 = Dedicated plan2 →
  Shared plan1 = Shared plan2 →
  types.AttributeTypes (Metadata plan1) = types.AttributeTypes (Metadata plan2) →
  clusterResource.Update client {| clusterResource.Plan_Get := (plan1, diags) |} resp
  = clusterResource.Update client {| clusterResource.Plan_Get := (plan2, diags) |} resp.
Proof.
  intros Hid Htags Hnp Hd Hs Htys.
  unfold clusterResource.Update. cbn [clusterResource.Plan_Get].
  cbn [AppendDiagnostics Diagnostics State]. rewrite Hid, Htags.
  destruct (diag.HasError _); [done|].
  destruct (clusterResource.UpdateMdsCluster_reply _ _ _) as [c|err]; [|done].
  destruct (saveFromResponse_agree (diag.Append (Diagnostics resp) diags)
              plan1 plan2 c Hnp Hd Hs Htys) as (Hcode & Hdiag & Hstate).
  destruct (call_saveFromResponse _ plan1 c) as [code1 fr1].
  destruct (call_saveFromResponse _ plan2 c) as [code2 fr2].
  cbn [fst snd] in *. subst code2. rewrite Hdiag.
  case_decide as Hc; [done|].
  assert (code1 = 0%Z) as H0 by by destruct (decide (code1 = 0%Z)).
  by rewrite (Hstate H0).
Qed.

(** X8.  What [Update] does: one request, with the identifier and the tags of
    the plan; on an error of the client, a diagnostic and the state as it
    was; on a cluster mapped without error, the plan mapped from the cluster
    returned, handed to [State.Set]. *)
Theorem Update_outcome client req resp plan diags :
  clusterResource.Plan_Get req = (plan, diags) →
  diag.HasError (diag.Append (Diagnostics resp) diags) = false →
  let id := types.ValueString (ID plan) in
  let request :=
    {| clusterResource.Tags :=
         types.ElementsAs (Reflection := reflection) (Tags plan) |} in
  (∀ err, clusterResource.UpdateMdsCluster_reply client id request = Err err →
     clusterResource.Update client req resp =
     (AddError (AppendDiagnostics resp diags) "Updating MDS Cluster"
        ("Could not update cluster, unexpected error: " +:+ errors.Error err),
      [clusterResource.UpdateMdsCluster id request])) ∧
  (∀ c, clusterResource.UpdateMdsCluster_reply client id request = Ok c →
     (call_saveFromResponse (diag.Append (Diagnostics resp) diags) plan c).1 = 0%Z →
     ∃ resp' st,
       clusterResource.Update client req resp =
       (resp', [clusterResource.UpdateMdsCluster id request;
                clusterResource.UpdateStateSet st]) ∧
       st = store (set_Tags (tagsOf c))
              (store (set_Metadata (metadataObjectOf plan c)) (savedStrings plan c)) ∧
       (diag.HasError (State_Set st) = false →
        State resp' = Some st ∧ diag.HasError (Diagnostics resp') = false)) ∧
  (∀ c, clusterResource.UpdateMdsCluster_reply client id request = Ok c →
     (call_saveFromResponse (diag.Append (Diagnostics resp) diags) plan c).1 ≠ 0%Z →
     ∃ resp',
       clusterResource.Update client req resp =
       (resp', [clusterResource.UpdateMdsCluster id request]) ∧
       State resp' = State resp ∧ diag.HasError (Diagnostics resp') = true).
Proof.
  intros Hplan Herr id request.
  unfold clusterResource.Update. rewrite Hplan.
  cbn [AppendDiagnostics Diagnostics State]. rewrite Herr. fold id. fold request.
  split; [|split].
  - by intros err ->.
  - intros c -> Hcode.
    destruct (saveFromResponse_ok _ _ _ Hcode) as (_ & He & Hst & _).
    destruct (call_saveFromResponse _ _ _) as [code fr]. cbn [fst snd] in *.
    case_decide; [done|]. eexists _, _. split_and!; [done|done|].
    intros Hset. cbn [State Diagnostics]. rewrite Hset. split; [done|].
    by rewrite HasError_Append, He, Hset.
  - intros c -> Hcode.
    pose proof (saveFromResponse_failed _ _ _ Hcode) as He.
    destruct (call_saveFromResponse _ _ _) as [code fr]. cbn [fst snd] in *.
    case_decide; [|done]. by eexists.
Qed.

End UpdateResource.

Section Registration.

Lemma append_inj_l (p s1 s2 : string) : p +:+ s1 = p +:+ s2 → s1 = s2.
Proof. induction p as [|a p IH]; cbn; [done|]. intros [= H]. by apply IH. Qed.

(** X10.  The type names the four [Metadata] functions give are pairwise
    distinct, for every provider name. *)
Theorem type_names_distinct (ProviderTypeName : string) :
  NoDup [clusterResource.Metadata ProviderTypeName;
         regionsDataSource.Metadata ProviderTypeName;
         serviceRolesDatasource.Metadata ProviderTypeName;
         networkPoliciesDatasource.Metadata ProviderTypeName].
Proof.
  unfold clusterResource.Metadata, regionsDataSource.Metadata,
    serviceRolesDatasource.Metadata, networkPoliciesDatasource.Metadata.
  repeat (apply NoDup_cons; split;
          [rewrite ?elem_of_cons, elem_of_nil;
           intros H; repeat destruct H as [H|H]; try done;
           apply append_inj_l in H; discriminate |]).
  apply NoDup_nil_2.
Qed.

(** X9.  [Configure] of the resource checks the type of the provider data and
    reports a value of another type; [Configure] of the data sources panics
    on it.  On every other provider data both leave the same client and no
    diagnostic is added. *)
Theorem Configure_type_assertion
    (client : option resource_cluster.Client)
    (data : provider.ProviderData resource_cluster.Client)
    (diags : list diag.Diagnostic) :
  let r := clusterResource.Configure client data diags in
  match regionsDataSource.Configure client data with
  | provider.Panic _ =>
      (∃ typeName, data = provider.OtherData typeName) ∧
      r.1 = client ∧ diag.HasError r.2 = true
  | provider.Done client' =>
      (∀ typeName, data ≠ provider.OtherData typeName) ∧
      r.1 = client' ∧ r.2 = diags ∧
      (data = provider.NoData → client' = client)
  end.
Proof.
  destruct data as [|c|typeName]; cbn.
  - split_and!; done.
  - split_and!; done.
  - split_and!; [by eexists|done|]. apply HasError_AddError.
Qed.

End Registration.

(** ** The regions data source *)

Section RegionsMapperMore.
Context {rf : types.Reflection}.
Import data_source_regions.


(** A return code other than 0 comes with an error diagnostic. *)
Lemma saveRegionsToState_error visit : ∀ d s,
  (saveRegionsToState d s visit).1.1 ≠ 0%Z →
  diag.HasError (saveRegionsToState d s visit).1.2 = true.
Proof.
  induction visit as [|[regionName dataPlaneIds] visit IH]; intros d s.
  - by cbn.
  - cbn [saveRegionsToState].
    destruct (types.ListValueFrom _ _) as [l diags].
    destruct (diag.HasError (diag.Append d diags)) eqn:E; [done|]. apply IH.
Qed.

End RegionsMapperMore.

Section RegionsRead.
Context {host : regionsDataSource.Host}.
Variable range : gmap string (list string) → list (string * list string).
Import regionsDataSource.

(** X12.  The organisation of the client is only sent for a dedicated data plane:
    when [dedicated_data_plane] is not known to be true, [Read] does the same
    whatever the organisation of the client is; when it is, the query sent
    carries it. *)
Theorem Read_sends_org_when_dedicated client req resp cfg diags :
  Config_Get req = (cfg, diags) →
  (types.ValueBool (data_source_regions.DedicatedDataPlane cfg) = false →
   ∀ org,
     Read range
       {| Root_OrgId := org;
          GetRegionsWithDataPlanes_reply := GetRegionsWithDataPlanes_reply client |}
       req resp
     = Read range client req resp) ∧
  (types.ValueBool (data_source_regions.DedicatedDataPlane cfg) = true →
   ∃ q tr, (Read range client req resp).2 = GetRegionsWithDataPlanes q :: tr ∧
           OrgId q = Root_OrgId client).
Proof.
  intros Hcfg. unfold Read. rewrite Hcfg. unfold regionQueryOf.
  cbn [Root_OrgId GetRegionsWithDataPlanes_reply].
  split.
  - by intros ->.
  - intros ->. destruct (GetRegionsWithDataPlanes_reply client _) as [regions|err];
      [|by eexists _, _].
    destruct (data_source_regions.saveRegionsToState _ _ _) as [[code d] s].
    case_decide; by eexists _, _.
Qed.

(** X13.  On a regions response mapped without error, [Read] hands to [State.Set]
    the configuration with the identifier [placeholder] and, after the
    regions it already had, one entry per region of the response: the names
    of the entries are the keys of the response, each once, and the
    identifier of an entry is its name.  On an error of the client or of
    the mapper nothing is handed to [State.Set]. *)
Theorem Read_regions client req resp cfg diags :
  Config_Get req = (cfg, diags) →
  (∀ m, data_source_regions.visits m (range m)) →
  let q := regionQueryOf client cfg in
  let r := Read range client req resp in
  (∀ regions,
     GetRegionsWithDataPlanes_reply client q = Ok regions →
     (data_source_regions.saveRegionsToState
        (diag.Append (Diagnostics resp) diags) cfg (range regions)).1.1 = 0%Z →
     ∃ st appended,
       r.2 = [GetRegionsWithDataPlanes q; StateSet st] ∧
       st = set_Id (data_source_regions.set_Regions cfg
                      (data_source_regions.Regions cfg ++ appended))
              (types.StringValue "placeholder") ∧
       data_source_regions.Name <$> appended
         ≡ₚ types.StringValue <$> (map_to_list regions).*1 ∧
       NoDup (data_source_regions.Name <$> appended) ∧
       length appended = size regions ∧
       Forall (λ e, data_source_regions.ID e = data_source_regions.Name e) appended ∧
       (diag.HasError (State_Set st) = false → State r.1 = Some st)) ∧
  (∀ err,
     GetRegionsWithDataPlanes_reply client q = Err err →
     r = ({| Diagnostics :=
               diag.AddError (diag.Append (Diagnostics resp) diags)
                 "Unable to Read MDS Regions:" (errors.Error err);
             State := State resp |}, [GetRegionsWithDataPlanes q])) ∧
  (∀ regions,
     GetRegionsWithDataPlanes_reply client q = Ok regions →
     (data_source_regions.saveRegionsToState
        (diag.Append (Diagnostics resp) diags) cfg (range regions)).1.1 ≠ 0%Z →
     r.2 = [GetRegionsWithDataPlanes q] ∧ State r.1 = State resp ∧
     diag.HasError (Diagnostics r.1) = true).
Proof.
  intros Hcfg Hrange q r. subst r. unfold Read. rewrite Hcfg. fold q.
  cbn [Diagnostics State].
  split; [|split].
  - intros regions Hreply Hcode. rewrite Hreply.
    pose proof (saveRegionsToState_ok (range regions)
                  (diag.Append (Diagnostics resp) diags) cfg) as Hok.
    destruct (data_source_regions.saveRegionsToState _ _ _) as [[code d] s].
    cbn [fst snd] in Hcode. subst code. specialize (Hok d s eq_refl).
    case_decide; [done|]. cbn [fst snd].
    eexists _, (data_source_regions.entryOf <$> range regions).
    split_and!.
    + done.
    + by rewrite Hok.
    + rewrite <- list_fmap_compose.
      rewrite (Hrange regions). by rewrite <- list_fmap_compose.
    + rewrite <- list_fmap_compose.
      assert (Hn : NoDup (range regions).*1).
      { rewrite (Hrange regions). apply NoDup_fst_map_to_list. }
      change (data_source_regions.Name ∘ data_source_regions.entryOf)
        with (types.StringValue ∘ (fst : string * list string → string)).
      rewrite list_fmap_compose. apply NoDup_fmap_2; [|done]. by intros ?? [=].
    + rewrite length_fmap, (Hrange regions). apply length_map_to_list.
    + apply Forall_fmap, Forall_true. done.
    + intros Hset. cbn [State]. by rewrite Hset.
  - intros err Hreply. by rewrite Hreply.
  - intros regions Hreply Hcode. rewrite Hreply.
    pose proof (saveRegionsToState_error (range regions)
                  (diag.Append (Diagnostics resp) diags) cfg Hcode) as He.
    destruct (data_source_regions.saveRegionsToState _ _ _) as [[code d] s].
    cbn [fst snd] in *. case_decide; [|done]. done.
Qed.

End RegionsRead.

(** ** The network policies and the service roles data sources *)

Section PoliciesRead.
Context {host : networkPoliciesDatasource.Host}.
Variables NETWORK DataSource NetworkPoliciesId : string.
Import networkPoliciesDatasource.

Lemma append_policies nwPolicies : ∀ policies,
  fold_left (λ policies mdsPolicyDTO, policies ++ [networkPolicyOf mdsPolicyDTO])
    nwPolicies policies
  = policies ++ (networkPolicyOf <$> nwPolicies).
Proof.
  induction nwPolicies as [|p nwPolicies IH]; intros policies; cbn.
  - by rewrite app_nil_r.
  - rewrite IH. by rewrite <- app_assoc.
Qed.

(** X14.  [Read] of the network policies forwards the names of the configuration
    in its query, and hands to [State.Set] the policies of the configuration
    followed by one entry per policy of the response, in the order of the
    response, each with the identifier and the name of the policy; an error
    of the client is reported and nothing is handed to [State.Set]. *)
Theorem Read_policies client req resp cfg diags :
  Config_Get req = (cfg, diags) →
  let query := {| q_Type := NETWORK; q_Names := Names cfg |} in
  let r := Read NETWORK DataSource NetworkPoliciesId client req resp in
  (∀ err, GetPolicies_reply client query = Err err →
     r = ({| Diagnostics :=
               diag.AddError (diag.Append (Diagnostics resp) diags)
                 "Unable to Read MDS Network Policies" (errors.Error err);
             State := State resp |}, [GetPolicies query])) ∧
  (∀ nwPolicies, GetPolicies_reply client query = Ok nwPolicies →
     let st :=
       {| Policies := Policies cfg ++ (networkPolicyOf <$> nwPolicies);
          Names := Names cfg;
          Id := types.StringValue (DataSource +:+ NetworkPoliciesId) |} in
     r.2 = [GetPolicies query; StateSet st] ∧
     length (Policies st) = length (Policies cfg) + length nwPolicies ∧
     (∀ i p, nwPolicies !! i = Some p →
        Policies st !! (length (Policies cfg) + i)
        = Some {| ID := types.StringValue (p_ID p);
                  Name := types.StringValue (p_Name p) |}) ∧
     (diag.HasError (State_Set st) = false → State r.1 = Some st) ∧
     (diag.HasError (State_Set st) = true → State r.1 = State resp)).
Proof.
  intros Hcfg query r. subst r. unfold Read. rewrite Hcfg. fold query.
  cbn [Diagnostics State]. split.
  - by intros err ->.
  - intros nwPolicies Hreply. rewrite Hreply, append_policies. cbn [fst snd].
    split_and!.
    + done.
    + cbn [Policies]. by rewrite length_app, length_fmap.
    + intros i p Hp. cbn [Policies].
      rewrite lookup_app_r by lia.
      replace (length (Policies cfg) + i - length (Policies cfg)) with i by lia.
      by rewrite list_lookup_fmap, Hp.
    + intros Hset. cbn [State]. by rewrite Hset.
    + intros Hset. cbn [State]. by rewrite Hset.
Qed.

End PoliciesRead.

Section RolesReadMore.
Context {host : data_source_service_roles.Host}.
Variable RABBITMQ : string.
Import data_source_service_roles.

(** X15.  [Read] of the service roles only reads the first entry of the response:
    two responses with the same first entry give the same result. *)
Theorem Read_reads_first_entry_only client1 client2 req resp r1 r2 dto dtos1 dtos2 :
  GetMdsServiceRoles_reply client1 {| service_metadata.Type_ := RABBITMQ |} = Ok r1 →
  GetMdsServiceRoles_reply client2 {| service_metadata.Type_ := RABBITMQ |} = Ok r2 →
  model.ServiceRoleDTO (model.Embedded r1) = dto :: dtos1 →
  model.ServiceRoleDTO (model.Embedded r2) = dto :: dtos2 →
  Read RABBITMQ client1 req resp = Read RABBITMQ client2 req resp.
Proof.
  intros H1 H2 Hd1 Hd2. unfold Read. destruct (Config_Get req) as [state diags].
  by rewrite H1, H2, Hd1, Hd2.
Qed.




End RolesReadMore.

(** ** More scenarios, on the reference framework *)

Section MoreScenarios.
Import resource_cluster.

Local Ltac evaluate := vm_compute; reflexivity.

Lemma reference_keeps_types : keeps_types (fw := reference.framework).
Proof. intros tys m. cbn. by case_decide. Defined.

(** A delete confirmed at the third fetch: three sleeps of ten seconds. *)
Lemma Delete_trace_witness :
  let r := Delete (fw := reference.framework)
             (reference.client (Ok [])
                [Ok reference.ready; Ok reference.ready;
                 Err (errors.ApiError 404 "not found")])
             reference.deleteRequest reference.emptyResponse in
  ∃ head k,
    clusterResource.trace_of r
    = head ++ mjoin (replicate k [Sleep 10; GetMdsCluster ""]) ∧
    fetches (clusterResource.trace_of r) = k ∧
    clusterResource.slept (clusterResource.trace_of r) = 10 * k.
Proof.
  intros r.
  destruct (Delete_trace (fw := reference.framework)
              (reference.client (Ok [])
                 [Ok reference.ready; Ok reference.ready;
                  Err (errors.ApiError 404 "not found")])
              reference.deleteRequest reference.emptyResponse reference.plan []
              eq_refl)
    as ((head & k & Htr & _ & _ & _ & Hf & Hs & _) & _).
  exists head, k. split_and!; [exact Htr|exact Hf|exact Hs].
Defined.

(** A create request the client rejects: no fetch follows. *)
Lemma Create_fails_fast_witness :
  ∃ r resp',
    Create (fw := reference.framework) reference_hosts.rejectingClient
      reference.createRequest reference.emptyResponse
    = Returned resp' [CreateMdsCluster r].
Proof.
  destruct (Create_fails_fast (fw := reference.framework)
              reference_hosts.rejectingClient reference.createRequest
              reference.emptyResponse reference.plan [] eq_refl) as [_ H].
  destruct (H eq_refl) as (Hrejected & _).
  destruct (Hrejected (errors.New "quota exceeded") eq_refl) as [r Hr].
  by eexists r, _.
Defined.

(** A refresh: one fetch by the identifier of the state, no sleep. *)
Lemma Read_outcome_witness :
  let tr := clusterResource.trace_of
              (clusterResource.Read (fw := reference.framework)
                 (reference.client (Ok []) [Ok reference.ready])
                 (reference_hosts.readRequest reference_hosts.renamedPlan)
                 reference.emptyResponse) in
  fetches tr = 1 ∧ clusterResource.slept tr = 0 ∧ clusterResource.polled tr = [""].
Proof.
  exact (proj1 (Read_outcome (fw := reference.framework)
                  (reference.client (Ok []) [Ok reference.ready])
                  (reference_hosts.readRequest reference_hosts.renamedPlan)
                  reference.emptyResponse reference_hosts.renamedPlan []
                  eq_refl eq_refl)).
Defined.

(** Create on [pending, READY], then a refresh while the cluster is still
    the same: the state is handed back unchanged. *)
Lemma Read_after_Create_is_stable_witness :
  ∃ c st resp1 tr resp2,
    Create (fw := reference.framework)
      (reference.client (Ok [reference.creating]) [Ok reference.ready])
      reference.createRequest reference.emptyResponse
    = Returned resp1 tr ∧
    State resp1 = Some st ∧
    clusterResource.Read (fw := reference.framework)
      (reference.client (Ok []) [Ok c]) (reference_hosts.readRequest st)
      reference.emptyResponse
    = Returned resp2 [GetMdsCluster (model.ID c); StateSet st] ∧
    State resp2 = Some st.
Proof.
  assert (Hrun : ∃ resp1 tr,
    Create (fw := reference.framework)
      (reference.client (Ok [reference.creating]) [Ok reference.ready])
      reference.createRequest reference.emptyResponse
    = Returned resp1 tr ∧ State resp1 ≠ State reference.emptyResponse).
  { eexists _, _. split; [evaluate|]. intros H. vm_compute in H. discriminate. }
  destruct Hrun as (resp1 & tr & Hrun & Hstate).
  destruct (Read_after_Create_is_stable (fw := reference.framework)
              reference_keeps_types _ _ _ resp1 tr Hrun Hstate)
    as (c & st & _ & Hst & Hread).
  destruct (Hread (reference.client (Ok []) [Ok c]) (reference_hosts.readRequest st)
              reference.emptyResponse [] [] eq_refl eq_refl eq_refl)
    as (resp2 & Hrun2 & Hset).
  exists c, st, resp1, tr, resp2.
  split_and!; [exact Hrun|exact Hst|exact Hrun2|exact (proj1 (Hset eq_refl))].
Defined.

(** A plan renamed and moved to another region: [Update] does the same as
    on the plan as it was. *)
Lemma Update_reads_id_and_tags_witness :
  clusterResource.Update (fw := reference.framework)
    (reference_hosts.updateClient (Ok reference.ready))
    (reference_hosts.updateRequest reference.plan) reference.emptyResponse
  = clusterResource.Update (fw := reference.framework)
      (reference_hosts.updateClient (Ok reference.ready))
      (reference_hosts.updateRequest reference_hosts.renamedPlan)
      reference.emptyResponse.
Proof.
  apply (Update_reads_id_and_tags (fw := reference.framework)
           (reference_hosts.updateClient (Ok reference.ready))
           reference.emptyResponse reference.plan reference_hosts.renamedPlan []);
    reflexivity.
Defined.

(** An update of the renamed plan: the name written is the one of the
    cluster returned. *)
Lemma Update_outcome_witness :
  ∃ resp' st tr,
    clusterResource.Update (fw := reference.framework)
      (reference_hosts.updateClient (Ok reference.ready))
      (reference_hosts.updateRequest reference_hosts.renamedPlan)
      reference.emptyResponse
    = (resp', tr ++ [clusterResource.UpdateStateSet st]) ∧
    State resp' = Some st ∧
    Name st = types.StringValue "rmq".
Proof.
  destruct (Update_outcome (fw := reference.framework)
              (reference_hosts.updateClient (Ok reference.ready))
              (reference_hosts.updateRequest reference_hosts.renamedPlan)
              reference.emptyResponse reference_hosts.renamedPlan [] eq_refl eq_refl)
    as (_ & Hok & _).
  destruct (Hok reference.ready eq_refl) as (resp' & st & Hrun & Hst & Hset);
    [evaluate|].
  exists resp', st, [clusterResource.UpdateMdsCluster "" {| clusterResource.Tags := ["dev"] |}].
  split_and!; [exact Hrun|exact (proj1 (Hset eq_refl))|].
  rewrite Hst. reflexivity.
Defined.

End MoreScenarios.

Section DataSourceScenarios.

Local Ltac evaluate := vm_compute; reflexivity.

(** A configuration that does not ask for a dedicated data plane: the
    organisation of the client plays no part. *)
Lemma Read_sends_org_when_dedicated_witness :
  regionsDataSource.Read (host := reference_hosts.regionsHost) reference_hosts.range
    {| regionsDataSource.Root_OrgId := "org-2";
       regionsDataSource.GetRegionsWithDataPlanes_reply _ :=
         Ok reference_hosts.twoRegions |}
    (reference_hosts.regionsRequest types.BoolNull)
    reference_hosts.emptyRegionsResponse
  = regionsDataSource.Read (host := reference_hosts.regionsHost) reference_hosts.range
      (reference_hosts.regionsClient (Ok reference_hosts.twoRegions))
      (reference_hosts.regionsRequest types.BoolNull)
      reference_hosts.emptyRegionsResponse.
Proof.
  destruct (Read_sends_org_when_dedicated (host := reference_hosts.regionsHost)
              reference_hosts.range
              (reference_hosts.regionsClient (Ok reference_hosts.twoRegions))
              (reference_hosts.regionsRequest types.BoolNull)
              reference_hosts.emptyRegionsResponse _ [] eq_refl) as [H _].
  exact (H eq_refl "org-2").
Defined.

(** Two regions in the response: two entries in the state. *)
Lemma Read_regions_witness :
  ∃ q st appended,
    (regionsDataSource.Read (host := reference_hosts.regionsHost) reference_hosts.range
       (reference_hosts.regionsClient (Ok reference_hosts.twoRegions))
       (reference_hosts.regionsRequest (types.BoolValue true))
       reference_hosts.emptyRegionsResponse).2
    = [regionsDataSource.GetRegionsWithDataPlanes q; regionsDataSource.StateSet st] ∧
    data_source_regions.Regions st = appended ∧
    length appended = size reference_hosts.twoRegions ∧
    NoDup (data_source_regions.Name <$> appended).
Proof.
  destruct (Read_regions (host := reference_hosts.regionsHost) reference_hosts.range
              (reference_hosts.regionsClient (Ok reference_hosts.twoRegions))
              (reference_hosts.regionsRequest (types.BoolValue true))
              reference_hosts.emptyRegionsResponse _ [] eq_refl)
    as (Hok & _).
  { intros m. unfold data_source_regions.visits, reference_hosts.range. reflexivity. }
  destruct (Hok reference_hosts.twoRegions eq_refl) as (st & appended & Htr & Hst & _ & Hn & Hlen & _);
    [evaluate|].
  eexists _, st, appended. split_and!; [exact Htr| |exact Hlen|exact Hn].
  rewrite Hst. reflexivity.
Defined.

(** Two policies in the response: two entries, in the same order. *)
Lemma Read_policies_witness :
  ∃ st,
    (networkPoliciesDatasource.Read (host := reference_hosts.policiesHost)
       "NETWORK" "datasource-" "network-policies"
       (reference_hosts.policiesClient
          (Ok [reference_hosts.policy "p-1" "open"; reference_hosts.policy "p-2" "vpn"]))
       (reference_hosts.policiesRequest ["open"; "vpn"])
       reference_hosts.emptyPoliciesResponse).2
    = [networkPoliciesDatasource.GetPolicies
         {| networkPoliciesDatasource.q_Type := "NETWORK";
            networkPoliciesDatasource.q_Names := ["open"; "vpn"] |};
       networkPoliciesDatasource.StateSet st] ∧
    networkPoliciesDatasource.Name <$> networkPoliciesDatasource.Policies st
    = [types.StringValue "open"; types.StringValue "vpn"].
Proof.
  destruct (Read_policies (host := reference_hosts.policiesHost)
              "NETWORK" "datasource-" "network-policies"
              (reference_hosts.policiesClient
                 (Ok [reference_hosts.policy "p-1" "open"; reference_hosts.policy "p-2" "vpn"]))
              (reference_hosts.policiesRequest ["open"; "vpn"])
              reference_hosts.emptyPoliciesResponse _ [] eq_refl) as [_ Hok].
  destruct (Hok _ eq_refl) as (Htr & _).
  eexists. split; [exact Htr|reflexivity].
Defined.

(** Two responses with the same first entry and different other entries. *)
Lemma Read_reads_first_entry_only_witness :
  data_source_service_roles.Read (host := reference.host) "RABBITMQ"
    (reference.rolesClient
       (Ok (reference.rolesResponse [{| model.Roles := reference.twoRoles |}])))
    (reference.rolesRequest "RABBITMQ") reference.emptyRolesResponse
  = data_source_service_roles.Read (host := reference.host) "RABBITMQ"
      (reference.rolesClient
         (Ok (reference.rolesResponse
                [{| model.Roles := reference.twoRoles |}; {| model.Roles := [] |}])))
      (reference.rolesRequest "RABBITMQ") reference.emptyRolesResponse.
Proof.
  exact (Read_reads_first_entry_only (host := reference.host) "RABBITMQ"
           (reference.rolesClient
              (Ok (reference.rolesResponse [{| model.Roles := reference.twoRoles |}])))
           (reference.rolesClient
              (Ok (reference.rolesResponse
                     [{| model.Roles := reference.twoRoles |}; {| model.Roles := [] |}])))
           (reference.rolesRequest "RABBITMQ") reference.emptyRolesResponse
           _ _ {| model.Roles := reference.twoRoles |} [] [{| model.Roles := [] |}]
           eq_refl eq_refl eq_refl eq_refl).
Defined.


End DataSourceScenarios.
